(** * Broadcast delivery engine: a shallow embedding

    The development models the two broadcast paths of the bot and the
    history export:

    - [run_broadcast], [manage_broadcast], [pro_callback],
      [process_broadcast], [pro_confirm_cb], [save_broadcast_history]
      (the PRO broadcast module, [broadcast_pro]);
    - the [ok] branch of [admin_broadcast_flow] (the simple broadcast of
      [main.py]);
    - [export_cb] (the CSV export of [main.py]).

    Python [str] is modelled by [string], Python [int] by [Z] (identifiers)
    or [nat] (counters), [None]-able values by [option].  The module level
    dictionary [pro_states] is a store of dictionary objects addressed by
    location, because the worker keeps a reference to the dictionary it
    fetched while handlers may rebind the key.  Delays handed to
    [asyncio.sleep] are rationals: [0.05] is [1 # 20] and [60.0 / R] is the
    quotient in [Q].

    The coroutines are run by one event loop: between two [await]s a
    coroutine is not interrupted, at an [await] other handlers may run.  A
    worker reads the registry only at the head of a pass and in the pause
    wait, so consecutive [await]s without such a read are one suspension
    of the model.  The calls that can raise in the model are the transport
    calls to the recipients and the progress edit; the queries and the
    insert on the database, the control message and the final message are
    taken to succeed. *)

From Stdlib Require Import ZArith QArith List String Ascii Lia.
From stdpp Require Import gmap strings list sorting pretty.

(** ** Messages *)

Record Message := {
  content_type : string;
  text : option string;
  caption : option string;
  chat_id : Z;
  message_id : Z;
  from_user_id : Z;
}.

(** Truth value of an optional Python string: [None] and the empty string
    are false. *)
Definition str_truthy (o : option string) : bool :=
  match o with
  | Some (String _ _) => true
  | _ => false
  end.

(** [a or b or <empty string>] on optional strings. *)
Definition str_or (a b : option string) : string :=
  match a with
  | Some (String c s) => String c s
  | _ => match b with
         | Some (String c s) => String c s
         | _ => EmptyString
         end
  end.

(** [s[:n]] *)
Fixpoint str_take (n : nat) (s : string) : string :=
  match n, s with
  | S n', String c s' => String c (str_take n' s')
  | _, _ => EmptyString
  end.

(** ** The registry [pro_states]

    [admin_id -> dict], where the dictionaries are mutable objects. A
    dictionary of the registry has (at most) the keys ["step"], ["msg"],
    ["paused"] and ["stopped"]. *)

Definition loc := nat.

Record st_dict := {
  d_step : option string;
  d_msg : option Message;
  d_paused : option bool;
  d_stopped : option bool;
}.

Definition empty_dict : st_dict :=
  {| d_step := None; d_msg := None; d_paused := None; d_stopped := None |}.

(** [{"step": "wait_msg"}] *)
Definition wait_msg_dict : st_dict :=
  {| d_step := Some "wait_msg"%string; d_msg := None;
     d_paused := None; d_stopped := None |}.

(** [{"step": "confirm", "msg": m, "paused": False, "stopped": False}] *)
Definition confirm_dict (m : Message) : st_dict :=
  {| d_step := Some "confirm"%string; d_msg := Some m;
     d_paused := Some false; d_stopped := Some false |}.

Definition set_paused (b : bool) (d : st_dict) : st_dict :=
  {| d_step := d_step d; d_msg := d_msg d;
     d_paused := Some b; d_stopped := d_stopped d |}.

Definition set_stopped (b : bool) (d : st_dict) : st_dict :=
  {| d_step := d_step d; d_msg := d_msg d;
     d_paused := d_paused d; d_stopped := Some b |}.

(** [bool(d)] for a dictionary: false exactly when it has no key. *)
Definition dict_truthy (d : st_dict) : bool :=
  match d_step d, d_msg d, d_paused d, d_stopped d with
  | None, None, None, None => false
  | _, _, _, _ => true
  end.

(** [d.get(k)] used as a condition, for a boolean entry. *)
Definition flag (o : option bool) : bool :=
  match o with
  | Some b => b
  | None => false
  end.

Record pro_states := {
  bindings : gmap Z loc;
  objects : gmap loc st_dict;
}.

Definition empty_states : pro_states :=
  {| bindings := ∅; objects := ∅ |}.

(** [pro_states.get(k)]: a reference, or [None]. *)
Definition get (p : pro_states) (k : Z) : option loc := bindings p !! k.

(** The dictionary a reference points to. *)
Definition deref (p : pro_states) (l : loc) : st_dict :=
  default empty_dict (objects p !! l).

(** The dictionary bound to [k], if any. *)
Definition lookup_state (p : pro_states) (k : Z) : option st_dict :=
  deref p <$> get p k.

(** [pro_states[k] = {...}]: a new dictionary object is bound to [k]. *)
Definition setitem (k : Z) (d : st_dict) (p : pro_states) : pro_states :=
  let l := fresh (dom (objects p)) in
  {| bindings := <[k := l]> (bindings p); objects := <[l := d]> (objects p) |}.

(** [pro_states.pop(k, None)] *)
Definition pop (k : Z) (p : pro_states) : pro_states :=
  {| bindings := delete k (bindings p); objects := objects p |}.

(** [st[key] = value] through a reference. *)
Definition update_obj (l : loc) (f : st_dict -> st_dict) (p : pro_states)
  : pro_states :=
  {| bindings := bindings p; objects := <[l := f (deref p l)]> (objects p) |}.

(** [not st] for the result of [pro_states.get(k)]. *)
Definition not_st (p : pro_states) (o : option loc) : bool :=
  match o with
  | None => true
  | Some l => negb (dict_truthy (deref p l))
  end.

(** ** Handlers of the PRO module that touch the registry *)

(** What the operator is told. *)
Inductive reply :=
  | AskForMessage       (* "Жду сообщение для рассылки." *)
  | NoActiveBroadcast   (* "Нет активной рассылки." *)
  | SaidPaused          (* "Рассылка приостановлена." *)
  | SaidResumed         (* "Продолжено." *)
  | SaidStopped         (* "Рассылка остановлена." *)
  | PreviewReady        (* "Предпросмотр готов." *)
  | ShownTemplates
  | ShownHistory
  | Silent.

Definition manage_broadcast (act : string) (who : Z) (p : pro_states)
  : pro_states * reply :=
  let st := get p who in
  if not_st p st then (p, NoActiveBroadcast)
  else match st with
       | None => (p, NoActiveBroadcast)
       | Some l =>
           if String.eqb act "pause" then
             (update_obj l (set_paused true) p, SaidPaused)
           else if String.eqb act "resume" then
             (update_obj l (set_paused false) p, SaidResumed)
           else if String.eqb act "stop" then
             (update_obj l (set_stopped true) p, SaidStopped)
           else (p, Silent)
       end.

(** [pro_callback] for callback data ["pro:" ++ act], sent by [who]. *)
Definition pro_callback (act : string) (who : Z) (p : pro_states)
  : pro_states * reply :=
  if String.eqb act "new" then
    (setitem who wait_msg_dict p, AskForMessage)
  else if String.eqb act "templates" then (p, ShownTemplates)
  else if String.eqb act "history" then (p, ShownHistory)
  else if String.eqb act "pause" || String.eqb act "resume"
          || String.eqb act "stop" then
    manage_broadcast act who p
  else (p, Silent).

Definition process_broadcast (m : Message) (p : pro_states)
  : pro_states * reply :=
  let st := get p (from_user_id m) in
  if not_st p st then (p, Silent)
  else match st with
       | None => (p, Silent)
       | Some l =>
           match d_step (deref p l) with
           | Some s =>
               if String.eqb s "wait_msg" then
                 (setitem (from_user_id m) (confirm_dict m) p, PreviewReady)
               else (p, Silent)
           | None => (p, Silent)
           end
       end.

(** Result of [pro_confirm_cb]: besides replies, it may schedule a worker
    ([asyncio.create_task(run_broadcast(...))]) or fail on [st["msg"]]. *)
Inductive confirm_result :=
  | ConfirmCancelled
  | ConfirmNoActive
  | ConfirmKeyError
  | ConfirmSpawned (admin_id : Z) (msg : Message).

Definition pro_confirm_cb (data : string) (who : Z) (p : pro_states)
  : pro_states * confirm_result :=
  if String.eqb data "pro:cancel" then (pop who p, ConfirmCancelled)
  else
    let st := get p who in
    if not_st p st then (p, ConfirmNoActive)
    else match st with
         | None => (p, ConfirmNoActive)
         | Some l =>
             match d_msg (deref p l) with
             | Some m => (p, ConfirmSpawned who m)
             | None => (p, ConfirmKeyError)
             end
         end.

(** ** History rows

    Table [broadcast_history]; [created_at] is a timestamp counted in
    seconds since 1970-01-01 00:00:00, the text columns are nullable. *)

Record HistoryRow := {
  h_id : Z;
  h_created_at : Z;
  h_admin_id : Z;
  h_type : option string;
  h_media_type : option string;
  h_sent_count : Z;
  h_total_users : Z;
  h_message_text : option string;
}.

(** The next value of the [SERIAL] column. *)
Definition next_serial (table : list HistoryRow) : Z :=
  (foldr Z.max 0 (h_id <$> table) + 1)%Z.

(** ** The environment of a worker

    A worker runs between two suspension points without interleaving; at a
    suspension point ([await]) the event loop may run handlers of the PRO
    module, and the transport or the progress edit may fail.  A [world]
    fixes all of that in advance. *)

Inductive handler_call :=
  | Callback (act : string) (who : Z)       (* pro_callback *)
  | Incoming (m : Message)                  (* process_broadcast *)
  | ConfirmCb (data : string) (who : Z).    (* pro_confirm_cb *)

Definition apply_handler (p : pro_states) (h : handler_call) : pro_states :=
  match h with
  | Callback act who => fst (pro_callback act who p)
  | Incoming m => fst (process_broadcast m p)
  | ConfirmCb data who => fst (pro_confirm_cb data who p)
  end.

Record world := {
  users : list (Z * bool);               (* table users: tg_id, banned *)
  BROADCAST_RATE : Z;
  arrivals : nat -> list handler_call;   (* handlers run at the n-th suspension *)
  send_raises : Z -> bool;               (* bot.send_message to a user raises *)
  copy_raises : Z -> bool;               (* bot.copy_message to a user raises *)
  edit_raises : nat -> bool;             (* bot.edit_message_text raises, by time *)
  utcnow : nat -> Z;                     (* the clock, by time *)
}.

(** [SELECT tg_id FROM users WHERE banned=FALSE] *)
Definition fetch_unbanned (us : list (Z * bool)) : list Z :=
  fst <$> filter (fun r => snd r = false) us.

Inductive call :=
  | SendMessage (uid : Z)
  | CopyMessage (uid : Z).

Inductive notice :=
  | Started (total : nat)
  | Finished (sent total failed : nat).

(** State of one worker together with what it can observe and what it has
    done: the registry, the logical time (number of suspensions so far),
    its counters, the transport calls made (with [true] when the call
    raised), the delays requested after a send, the progress renders, the
    warnings logged, the history table and the notices to the operator. *)
Record wstate := WState {
  states : pro_states;
  tick : nat;
  sent : nat;
  failed : nat;
  calls : list (call * bool);
  sleeps : list Q;
  edits : list (nat * nat * nat);
  warnings : list Z;
  history : list HistoryRow;
  notices : list notice;
}.

Definition initial (p : pro_states) (table : list HistoryRow) : wstate :=
  WState p 0 0 0 [] [] [] [] table [].

(** An [await]: time advances and the handlers that arrive run. *)
Definition suspend (w : world) (s : wstate) : wstate :=
  WState (foldl apply_handler (states s) (arrivals w (tick s)))
         (S (tick s)) (sent s) (failed s) (calls s) (sleeps s) (edits s)
         (warnings s) (history s) (notices s).

Definition reset_counters (s : wstate) : wstate :=
  WState (states s) (tick s) 0 0 (calls s) (sleeps s) (edits s)
         (warnings s) (history s) (notices s).

Definition count_sent (c : call) (s : wstate) : wstate :=
  WState (states s) (tick s) (S (sent s)) (failed s) (calls s ++ [(c, false)])
         (sleeps s) (edits s) (warnings s) (history s) (notices s).

Definition count_failed (c : call) (uid : Z) (s : wstate) : wstate :=
  WState (states s) (tick s) (sent s) (S (failed s)) (calls s ++ [(c, true)])
         (sleeps s) (edits s) (warnings s ++ [uid]) (history s) (notices s).

(** [await asyncio.sleep(delay)] after a send. *)
Definition sleep_for (w : world) (d : Q) (s : wstate) : wstate :=
  let s := suspend w s in
  WState (states s) (tick s) (sent s) (failed s) (calls s) (sleeps s ++ [d])
         (edits s) (warnings s) (history s) (notices s).

Definition log_edit (e : nat * nat * nat) (s : wstate) : wstate :=
  WState (states s) (tick s) (sent s) (failed s) (calls s) (sleeps s)
         (edits s ++ [e]) (warnings s) (history s) (notices s).

Definition notify (n : notice) (s : wstate) : wstate :=
  WState (states s) (tick s) (sent s) (failed s) (calls s) (sleeps s)
         (edits s) (warnings s) (history s) (notices s ++ [n]).

Definition with_states (p : pro_states) (s : wstate) : wstate :=
  WState p (tick s) (sent s) (failed s) (calls s) (sleeps s)
         (edits s) (warnings s) (history s) (notices s).

Definition insert_history (r : HistoryRow) (s : wstate) : wstate :=
  WState (states s) (tick s) (sent s) (failed s) (calls s) (sleeps s)
         (edits s) (warnings s) (history s ++ [r]) (notices s).

(** ** The PRO worker *)

(** The bound of the slice [[:4000]]. *)
Definition text_limit : nat := 4000.

(** The stored text: [(msg.text or msg.caption or <empty>)[:4000]]. *)
Definition stored_text (msg : Message) : string :=
  str_take text_limit (str_or (text msg) (caption msg)).

Definition save_broadcast_history (w : world) (admin_id : Z) (msg : Message)
    (sent total : nat) (s : wstate) : wstate :=
  let s := suspend w s in
  insert_history
    {| h_id := next_serial (history s);
       h_created_at := utcnow w (tick s);
       h_admin_id := admin_id;
       h_type := Some "pro"%string;
       h_media_type := Some (content_type msg);
       h_sent_count := Z.of_nat sent;
       h_total_users := Z.of_nat total;
       h_message_text := Some (stored_text msg) |} s.

(** How one pass through the loop body, or the loop, ends. *)
Inductive flow :=
  | Continue (s : wstate)   (* the body ran to its end *)
  | Break (s : wstate)      (* [break]: no state, or stopped *)
  | Raised (s : wstate)     (* [edit_message_text] raised *)
  | Polling (s : wstate).   (* still in the pause wait when the poll budget ended *)

(** [while st.get("paused"): await asyncio.sleep(1)], for at most [polls]
    sleeps; [st] is the reference [l] fetched at the top of the pass. *)
Fixpoint wait_paused (w : world) (polls : nat) (l : loc) (s : wstate) : flow :=
  if flag (d_paused (deref (states s) l)) then
    match polls with
    | O => Polling s
    | S n => wait_paused w n l (suspend w s)
    end
  else Continue s.

(** The [try] block: one transport call for [uid], counted. *)
Definition attempt (w : world) (msg : Message) (uid : Z) (s : wstate) : wstate :=
  let s := suspend w s in
  if String.eqb (content_type msg) "text" then
    if send_raises w uid then count_failed (SendMessage uid) uid s
    else count_sent (SendMessage uid) s
  else
    if copy_raises w uid then count_failed (CopyMessage uid) uid s
    else count_sent (CopyMessage uid) s.

(** [0.05] *)
Definition pro_delay : Q := 1 # 20.

(** [sent % 100 == 0 or uid == tg_ids[-1]] *)
Definition progress_due (tg_ids : list Z) (uid : Z) (s : wstate) : bool :=
  (sent s mod 100 =? 0)%nat || bool_decide (last tg_ids = Some uid).

(** The progress edit. *)
Definition report (w : world) (total : nat) (s : wstate) : flow :=
  if edit_raises w (tick s) then Raised (suspend w s)
  else Continue (log_edit (sent s, total, failed s) (suspend w s)).

(** The loop body for [uid]. *)
Definition iteration (w : world) (polls : nat) (admin_id : Z) (msg : Message)
    (tg_ids : list Z) (uid : Z) (s : wstate) : flow :=
  let st := get (states s) admin_id in
  if not_st (states s) st then Break s
  else match st with
       | None => Break s
       | Some l =>
           if flag (d_stopped (deref (states s) l)) then Break s
           else match wait_paused w polls l s with
                | Continue s1 =>
                    let s2 := attempt w msg uid s1 in
                    let s3 := sleep_for w pro_delay s2 in
                    if progress_due tg_ids uid s3
                    then report w (length tg_ids) s3
                    else Continue s3
                | other => other
                end
       end.

(** [for uid in tg_ids: ...] over the recipients still to come. *)
Fixpoint for_loop (w : world) (polls : nat) (admin_id : Z) (msg : Message)
    (tg_ids rest : list Z) (s : wstate) : flow :=
  match rest with
  | [] => Continue s
  | uid :: rest' =>
      match iteration w polls admin_id msg tg_ids uid s with
      | Continue s' => for_loop w polls admin_id msg tg_ids rest' s'
      | other => other
      end
  end.

(** What precedes the loop: the counters, the recipient query, the topic
    lookup and the control message. *)
Definition prelude (w : world) (s : wstate) : wstate :=
  let s := reset_counters s in
  let s := suspend w s in
  let s := suspend w s in
  let s := suspend w s in
  notify (Started (length (fetch_unbanned (users w)))) s.

(** What follows the loop: the history row, the tally, the cleanup. *)
Definition epilogue (w : world) (admin_id : Z) (msg : Message) (total : nat)
    (s : wstate) : wstate :=
  let s := save_broadcast_history w admin_id msg (sent s) total s in
  let s := notify (Finished (sent s) total (failed s)) (suspend w s) in
  with_states (pop admin_id (states s)) s.

Inductive result :=
  | Returned (s : wstate)   (* the coroutine ran to its end *)
  | Crashed (s : wstate)    (* an exception left the coroutine *)
  | Waiting (s : wstate).   (* the worker is still in the pause wait *)

Definition run_broadcast (w : world) (polls : nat) (admin_id : Z)
    (msg : Message) (s : wstate) : result :=
  let tg_ids := fetch_unbanned (users w) in
  match for_loop w polls admin_id msg tg_ids tg_ids (prelude w s) with
  | Continue s' | Break s' => Returned (epilogue w admin_id msg (length tg_ids) s')
  | Raised s' => Crashed s'
  | Polling s' => Waiting s'
  end.

(** ** The simple broadcast: the [ok] branch of [admin_broadcast_flow] *)

Record tally := Tally {
  t_sent : nat;
  t_failed : nat;
  t_calls : list (call * bool);
  t_sleeps : list Q;
  t_warnings : list Z;
}.

(** [0 if BROADCAST_RATE <= 0 else 60.0 / BROADCAST_RATE] *)
Definition simple_delay (rate : Z) : Q :=
  if (rate <=? 0)%Z then 0%Q else (60 / inject_Z rate)%Q.

(** The transport calls of one pass and whether the pass ends in the outer
    [except]: a text is sent; anything else is copied, and when the copy
    raises the inner handler sends [msg_obj.text] if there is one. *)
Definition simple_send (w : world) (msg : Message) (uid : Z)
  : list (call * bool) * bool :=
  if String.eqb (content_type msg) "text" then
    ([(SendMessage uid, send_raises w uid)], send_raises w uid)
  else if copy_raises w uid then
    if str_truthy (text msg) then
      ([(CopyMessage uid, true); (SendMessage uid, send_raises w uid)],
       send_raises w uid)
    else ([(CopyMessage uid, true)], false)
  else ([(CopyMessage uid, false)], false).

(** The loop body for [uid]. *)
Definition simple_iteration (w : world) (msg : Message) (delay : Q) (uid : Z)
    (t : tally) : tally :=
  let '(cs, raised) := simple_send w msg uid in
  let slept := if Qeq_bool delay 0 then t_sleeps t else t_sleeps t ++ [delay] in
  if raised then
    Tally (t_sent t) (S (t_failed t)) (t_calls t ++ cs) slept
          (t_warnings t ++ [uid])
  else
    Tally (S (t_sent t)) (t_failed t) (t_calls t ++ cs) slept (t_warnings t).

Definition simple_loop (w : world) (msg : Message) (delay : Q)
    (tg_ids : list Z) (t : tally) : tally :=
  foldl (fun t uid => simple_iteration w msg delay uid t) t tg_ids.

(** From the recipient query to the end of the loop; the counters are what
    the final message to the admin chat shows. *)
Definition admin_broadcast_flow_ok (w : world) (msg_obj : Message) : tally :=
  let tg_ids := fetch_unbanned (users w) in
  let delay := simple_delay (BROADCAST_RATE w) in
  simple_loop w msg_obj delay tg_ids (Tally 0 0 [] [] []).

(** ** The CSV export, [export_cb] *)

Definition chr (n : nat) : ascii := ascii_of_nat n.

Definition str1 (c : ascii) : string := String c EmptyString.

(** [s.replace(a, b)] for one-character [a] and [b]. *)
Fixpoint replace_char (a b : ascii) (s : string) : string :=
  match s with
  | EmptyString => EmptyString
  | String c s' =>
      String (if Ascii.eqb c a then b else c) (replace_char a b s')
  end.

(** [x or <empty string>] for a nullable text column. *)
Definition or_empty (o : option string) : string :=
  match o with
  | Some s => s
  | None => EmptyString
  end.

Definition pad2 (n : Z) : string :=
  if (n <? 10)%Z then "0" +:+ pretty n else pretty n.

Definition pad4 (n : Z) : string :=
  if (n <? 10)%Z then "000" +:+ pretty n
  else if (n <? 100)%Z then "00" +:+ pretty n
  else if (n <? 1000)%Z then "0" +:+ pretty n
  else pretty n.

(** Year, month and day of a day number counted from 1970-01-01. *)
Definition civil_from_days (days : Z) : Z * Z * Z :=
  let z := (days + 719468)%Z in
  let era := (z / 146097)%Z in
  let doe := (z - era * 146097)%Z in
  let yoe := ((doe - doe / 1460 + doe / 36524 - doe / 146096) / 365)%Z in
  let doy := (doe - (365 * yoe + yoe / 4 - yoe / 100))%Z in
  let mp := ((5 * doy + 2) / 153)%Z in
  let d := (doy - (153 * mp + 2) / 5 + 1)%Z in
  let m := (if (mp <? 10)%Z then mp + 3 else mp - 9)%Z in
  let y := (yoe + era * 400 + (if (m <=? 2)%Z then 1 else 0))%Z in
  (y, m, d).

(** [created_at.strftime("%Y-%m-%d %H:%M:%S")] *)
Definition strftime (ts : Z) : string :=
  let '(y, m, d) := civil_from_days (ts / 86400) in
  let secs := (ts mod 86400)%Z in
  pad4 y +:+ "-" +:+ pad2 m +:+ "-" +:+ pad2 d +:+ " " +:+
  pad2 (secs / 3600) +:+ ":" +:+ pad2 (secs mod 3600 / 60) +:+ ":" +:+
  pad2 (secs mod 60).

Definition dquote : string := str1 (chr 34).
Definition newline : string := str1 (chr 10).

(** The free text columns [type] and [media_type]. *)
Definition csv_plain (o : option string) : string :=
  replace_char "," " " (or_empty o).

(** The column [message_text], without its enclosing quotes. *)
Definition csv_message (o : option string) : string :=
  replace_char (chr 13) " "
    (replace_char (chr 10) " "
       (replace_char (chr 34) (chr 39) (or_empty o))).

Definition csv_header : string :=
  "id,created_at,admin_id,type,media_type,sent_count,total_users,message_text".

Definition csv_line (r : HistoryRow) : string :=
  pretty (h_id r) +:+ "," +:+
  dquote +:+ strftime (h_created_at r) +:+ dquote +:+ "," +:+
  pretty (h_admin_id r) +:+ "," +:+
  csv_plain (h_type r) +:+ "," +:+
  csv_plain (h_media_type r) +:+ "," +:+
  pretty (h_sent_count r) +:+ "," +:+ pretty (h_total_users r) +:+ "," +:+
  dquote +:+ csv_message (h_message_text r) +:+ dquote.

(** [ORDER BY created_at DESC] *)
Definition newer_first (a b : HistoryRow) : Prop :=
  (h_created_at b <= h_created_at a)%Z.

#[global] Instance newer_first_dec a b : Decision (newer_first a b).
Proof. unfold newer_first. apply _. Defined.

(** [SELECT ... FROM broadcast_history {where} ORDER BY created_at DESC];
    [cutoff] is [now() - INTERVAL 'n days'] when there is a [WHERE], whose
    condition is [created_at > cutoff]. *)
Definition matches (cutoff : option Z) (r : HistoryRow) : bool :=
  match cutoff with
  | Some c => (c <? h_created_at r)%Z
  | None => true
  end.

Definition select_history (cutoff : option Z) (table : list HistoryRow)
  : list HistoryRow :=
  merge_sort newer_first (List.filter (matches cutoff) table).

(** What the loop over the rows writes to the buffer. *)
Definition csv_lines (rows : list HistoryRow) : string :=
  foldr (fun r acc => csv_line r +:+ newline +:+ acc) EmptyString rows.

Inductive export_result :=
  | PanelShown                               (* kind "back" *)
  | NothingFound                             (* "Ничего не найдено под выбранный фильтр." *)
  | Exported (filename : string) (data : string).

Definition days (n : Z) : Z := (n * 86400)%Z.

(** [export_cb] for callback data ["exp:" ++ kind] at database time [now]. *)
Definition export_cb (kind : string) (now : Z) (table : list HistoryRow)
  : export_result :=
  if String.eqb kind "back" then PanelShown
  else
    let '(cutoff, title) :=
      if String.eqb kind "last7" then (Some (now - days 7)%Z, "last7"%string)
      else if String.eqb kind "last30" then (Some (now - days 30)%Z, "last30"%string)
      else (None, "all"%string) in
    match select_history cutoff table with
    | [] => NothingFound
    | rows =>
        Exported ("broadcast-history-" +:+ title +:+ ".csv")
          (csv_header +:+ newline +:+ csv_lines rows)
    end.

(** ** Vocabulary of the statements *)

Definition flow_state (f : flow) : wstate :=
  match f with
  | Continue s | Break s | Raised s | Polling s => s
  end.

Definition result_state (r : result) : wstate :=
  match r with
  | Returned s | Crashed s | Waiting s => s
  end.

Definition call_uid (c : call) : Z :=
  match c with
  | SendMessage uid | CopyMessage uid => uid
  end.

(** The recipients of a list of transport calls, in order. *)
Definition recipients (l : list (call * bool)) : list Z :=
  (fun c => call_uid (fst c)) <$> l.

(** Calls that returned, and calls that raised. *)
Definition succeeded_count (l : list (call * bool)) : nat :=
  length (List.filter (fun c => negb (snd c)) l).

Definition raised_count (l : list (call * bool)) : nat :=
  length (List.filter snd l).


(** The condition of the [break] at an iteration boundary: no (non-empty)
    state is bound to the operator, or its [stopped] entry is true. *)
Definition break_condition (admin_id : Z) (s : wstate) : Prop :=
  match get (states s) admin_id with
  | None => True
  | Some l =>
      dict_truthy (deref (states s) l) = false
      \/ flag (d_stopped (deref (states s) l)) = true
  end.

(** The transport call the PRO worker makes for a recipient, with [true]
    when it raises. *)
Definition transport (w : world) (msg : Message) (uid : Z) : call * bool :=
  if String.eqb (content_type msg) "text"
  then (SendMessage uid, send_raises w uid)
  else (CopyMessage uid, copy_raises w uid).

(** [s'] is [s] after the transport calls [new], each followed by the fixed
    delay of the PRO worker; nothing was written to the history and nothing
    was announced. *)
Definition extends (s s' : wstate) (new : list (call * bool)) : Prop :=
  calls s' = calls s ++ new
  /\ sent s' = sent s + succeeded_count new
  /\ failed s' = failed s + raised_count new
  /\ sleeps s' = sleeps s ++ replicate (length new) pro_delay
  /\ history s' = history s
  /\ notices s' = notices s.

(** The row that [save_broadcast_history] writes, up to its key and its
    time stamp. *)
Definition written (admin_id : Z) (msg : Message) (r : HistoryRow)
    (n total : nat) : Prop :=
  h_admin_id r = admin_id
  /\ h_type r = Some "pro"%string
  /\ h_media_type r = Some (content_type msg)
  /\ h_sent_count r = Z.of_nat n
  /\ h_total_users r = Z.of_nat total
  /\ h_message_text r = Some (stored_text msg).

(** A world in which nothing happens besides the worker: no handler runs,
    no call raises. *)
Definition quiet (us : list (Z * bool)) (rate : Z) : world :=
  {| users := us; BROADCAST_RATE := rate;
     arrivals := fun _ => [];
     send_raises := fun _ => false;
     copy_raises := fun _ => false;
     edit_raises := fun _ => false;
     utcnow := fun n => Z.of_nat n |}.

Definition text_message (who : Z) (body : string) : Message :=
  {| content_type := "text"; text := Some body; caption := None;
     chat_id := -100; message_id := 1; from_user_id := who |}.

Definition photo_message (who : Z) (cap : option string) : Message :=
  {| content_type := "photo"; text := None; caption := cap;
     chat_id := -100; message_id := 1; from_user_id := who |}.

(** The registry right after operator [who] sent [m] for preview. *)
Definition confirmed (who : Z) (m : Message) : pro_states :=
  setitem who (confirm_dict m) empty_states.

(** Two eligible users and a banned one. *)
Definition three_users : list (Z * bool) :=
  [(1%Z, false); (2%Z, false); (3%Z, true)].


(** The operator cancels while the worker is before its loop. *)
Definition cancelled_early (us : list (Z * bool)) (who : Z) : world :=
  {| users := us; BROADCAST_RATE := 20;
     arrivals := fun n => match n with
                          | 1 => [ConfirmCb "pro:cancel" who]
                          | _ => []
                          end;
     send_raises := fun _ => false;
     copy_raises := fun _ => false;
     edit_raises := fun _ => false;
     utcnow := fun n => Z.of_nat n |}.

(** The three time ranges of the export menu, their callback data and
    their [WHERE] clause. *)
Inductive time_range := Last7 | Last30 | AllTime.

Definition kind_of (range : time_range) : string :=
  match range with
  | Last7 => "last7"
  | Last30 => "last30"
  | AllTime => "all"
  end.

Definition cutoff_of (range : time_range) (now : Z) : option Z :=
  match range with
  | Last7 => Some (now - days 7)%Z
  | Last30 => Some (now - days 30)%Z
  | AllTime => None
  end.

(** What the export does to a character of [type] and [media_type], and to
    a character of [message_text]. *)
Definition comma_to_space (c : ascii) : ascii :=
  if Ascii.eqb c "," then " "%char else c.

Definition normalize (c : ascii) : ascii :=
  if Ascii.eqb c (chr 34) then chr 39
  else if Ascii.eqb c (chr 10) || Ascii.eqb c (chr 13) then " "%char
  else c.

(** A history row as the PRO worker writes it. *)
Definition sample_row (id created : Z) (body : string) : HistoryRow :=
  {| h_id := id; h_created_at := created; h_admin_id := 7;
     h_type := Some "pro"%string; h_media_type := Some "text"%string;
     h_sent_count := 1; h_total_users := 1; h_message_text := Some body |}.

(** The control message has been deleted: every progress edit raises.
    Sending to the users in [unreachable] raises as well. *)
Definition control_message_deleted (us : list (Z * bool))
    (unreachable : list Z) : world :=
  {| users := us; BROADCAST_RATE := 20;
     arrivals := fun _ => [];
     send_raises := fun uid => bool_decide (uid ∈ unreachable);
     copy_raises := fun uid => bool_decide (uid ∈ unreachable);
     edit_raises := fun _ => true;
     utcnow := fun n => Z.of_nat n |}.

(** The operator pauses while the worker is before its loop and presses
    stop during the third sleep of the pause wait. *)
Definition stop_while_paused (us : list (Z * bool)) (who : Z) : world :=
  {| users := us; BROADCAST_RATE := 20;
     arrivals := fun n => match n with
                          | 1 => [Callback "pause" who]
                          | 5 => [Callback "stop" who]
                          | _ => []
                          end;
     send_raises := fun _ => false;
     copy_raises := fun _ => false;
     edit_raises := fun _ => false;
     utcnow := fun n => Z.of_nat n |}.

(** Sending or copying to the users in [unreachable] raises; nothing else
    goes wrong. *)
Definition some_unreachable (us : list (Z * bool)) (rate : Z)
    (unreachable : list Z) : world :=
  {| users := us; BROADCAST_RATE := rate;
     arrivals := fun _ => [];
     send_raises := fun uid => bool_decide (uid ∈ unreachable);
     copy_raises := fun uid => bool_decide (uid ∈ unreachable);
     edit_raises := fun _ => false;
     utcnow := fun n => Z.of_nat n |}.

(** The operator pauses during the sleep after the first send (suspension
    4) and resumes during the second sleep of the pause wait. *)
Definition pause_then_resume (us : list (Z * bool)) (who : Z) : world :=
  {| users := us; BROADCAST_RATE := 20;
     arrivals := fun n => match n with
                          | 4 => [Callback "pause" who]
                          | 6 => [Callback "resume" who]
                          | _ => []
                          end;
     send_raises := fun _ => false;
     copy_raises := fun _ => false;
     edit_raises := fun _ => false;
     utcnow := fun n => Z.of_nat n |}.

(** The operator pauses during the sleep after the first send, presses
    stop during the second sleep of the pause wait and resumes during the
    third. *)
Definition stop_in_pause_then_resume (us : list (Z * bool)) (who : Z) : world :=
  {| users := us; BROADCAST_RATE := 20;
     arrivals := fun n => match n with
                          | 4 => [Callback "pause" who]
                          | 6 => [Callback "stop" who]
                          | 7 => [Callback "resume" who]
                          | _ => []
                          end;
     send_raises := fun _ => false;
     copy_raises := fun _ => false;
     edit_raises := fun _ => false;
     utcnow := fun n => Z.of_nat n |}.


(** No dictionary of the registry has [paused] set. *)
Definition unpaused (p : pro_states) : Prop :=
  forall l d, objects p !! l = Some d -> flag (d_paused d) = false.

(** A handler call other than [pro:pause]. *)
Definition no_pause_request (h : handler_call) : Prop :=
  match h with
  | Callback act _ => act <> "pause"%string
  | _ => True
  end.

(** [n] suspensions in a row. *)
Fixpoint suspends (w : world) (n : nat) (s : wstate) : wstate :=
  match n with
  | O => s
  | S n' => suspends w n' (suspend w s)
  end.

(** * Further parts of the bot

    For the predicates on characters a character is a code point below
    256; the tables are those of Python for that range. *)

(** [ch.isdigit()]: the ten decimal digits and the superscripts two,
    three and one. *)
Definition py_isdigit (c : ascii) : bool :=
  let n := nat_of_ascii c in
  ((48 <=? n)%nat && (n <=? 57)%nat)
  || (n =? 178)%nat || (n =? 179)%nat || (n =? 185)%nat.

(** The characters that [int] reads as decimal digits. *)
Definition is_decimal (c : ascii) : bool :=
  let n := nat_of_ascii c in (48 <=? n)%nat && (n <=? 57)%nat.

(** [ch.isspace()] *)
Definition py_isspace (c : ascii) : bool :=
  let n := nat_of_ascii c in
  ((9 <=? n)%nat && (n <=? 13)%nat) || ((28 <=? n)%nat && (n <=? 32)%nat)
  || (n =? 133)%nat || (n =? 160)%nat.

(** [ch.lower()] *)
Definition py_lower_char (c : ascii) : ascii :=
  let n := nat_of_ascii c in
  if ((65 <=? n)%nat && (n <=? 90)%nat)
     || ((192 <=? n)%nat && (n <=? 222)%nat && negb (n =? 215)%nat)
  then ascii_of_nat (n + 32) else c.

Fixpoint str_forall (f : ascii -> bool) (s : string) : bool :=
  match s with
  | EmptyString => true
  | String c s' => f c && str_forall f s'
  end.

Fixpoint str_filter (f : ascii -> bool) (s : string) : string :=
  match s with
  | EmptyString => EmptyString
  | String c s' => if f c then String c (str_filter f s') else str_filter f s'
  end.

Fixpoint str_map (f : ascii -> ascii) (s : string) : string :=
  match s with
  | EmptyString => EmptyString
  | String c s' => String (f c) (str_map f s')
  end.

(** [s.lower()] *)
Definition py_lower (s : string) : string := str_map py_lower_char s.

(** [s.lstrip()], [s.rstrip()], [s.strip()] *)
Fixpoint lstrip (s : string) : string :=
  match s with
  | EmptyString => EmptyString
  | String c s' => if py_isspace c then lstrip s' else s
  end.

Fixpoint rstrip (s : string) : string :=
  match s with
  | EmptyString => EmptyString
  | String c s' =>
      match rstrip s' with
      | EmptyString => if py_isspace c then EmptyString else String c EmptyString
      | r => String c r
      end
  end.

Definition strip (s : string) : string := rstrip (lstrip s).

(** [s.isdigit()]: not empty and made of digits. *)
Definition str_isdigit (s : string) : bool :=
  match s with
  | EmptyString => false
  | _ => str_forall py_isdigit s
  end.

(** ** [normalize_phone] *)

(** The digits of the text, in order. *)
Definition digits_of (raw : string) : string := str_filter py_isdigit raw.

Definition normalize_phone (raw : string) : option string :=
  match raw with
  | EmptyString => None
  | _ =>
      let digits := digits_of raw in
      match digits with
      | String d rest =>
          if (String.length digits =? 11)%nat
             && (Ascii.eqb d "7" || Ascii.eqb d "8")
          then Some ("+7" +:+ rest)
          else if (String.length digits =? 10)%nat && Ascii.eqb d "9"
          then Some ("+7" +:+ digits)
          else None
      | EmptyString => None
      end
  end.

(** ** [client_router]: the window for handing in a number

    Time is counted in microseconds. [await_number_until] maps a user to
    the deadline of the open window. *)

Definition minutes (n : Z) : Z := (n * 60 * 1000000)%Z.

(** The four button texts read from the settings. *)
Record buttons := {
  btn_ref : string;
  btn_howto : string;
  btn_support : string;
  btn_submit : string;
}.

Inductive client_outcome :=
  | ShowReferral
  | ShowHowto
  | ShowSupport
  | WindowOpened (deadline : Z)
  | NumberAccepted (phone raw_text : string)   (* stored, posted, forwarded *)
  | NumberRefused                              (* the warning *)
  | ForwardedToOperators.                      (* [user_to_thread] *)

(** [client_router] for a message with text [text] from [uid]; [now1] and
    [now2] are the first and the second reading of the clock. *)
Definition client_router (btn : buttons) (now1 now2 : Z) (uid : Z)
    (text : option string) (await_number_until : gmap Z Z)
  : gmap Z Z * client_outcome :=
  let txt := strip (or_empty text) in
  if String.eqb txt (btn_ref btn) then (await_number_until, ShowReferral)
  else if String.eqb txt (btn_howto btn) then (await_number_until, ShowHowto)
  else if String.eqb txt (btn_support btn) then (await_number_until, ShowSupport)
  else if String.eqb txt (btn_submit btn) then
    (<[uid := (now1 + minutes 5)%Z]> await_number_until,
     WindowOpened (now1 + minutes 5)%Z)
  else
    match text with
    | Some (String c t) =>
        let deadline := await_number_until !! uid in
        match normalize_phone (String c t) with
        | Some phone =>
            match deadline with
            | Some d =>
                if (now1 <=? d)%Z then
                  (delete uid await_number_until,
                   NumberAccepted phone (str_take text_limit (String c t)))
                else if negb (now2 <=? d)%Z then
                  (await_number_until, NumberRefused)
                else (await_number_until, ForwardedToOperators)
            | None => (await_number_until, NumberRefused)
            end
        | None => (await_number_until, ForwardedToOperators)
        end
    | _ => (await_number_until, ForwardedToOperators)
    end.

(** Whether [client_router] calls [user_to_thread(m)]: at the end of the
    branch that accepts a number, and in the last line. *)
Definition reaches_operators (o : client_outcome) : bool :=
  match o with
  | NumberAccepted _ _ | ForwardedToOperators => true
  | _ => false
  end.

(** The text is none of the four buttons. *)
Definition not_a_button (btn : buttons) (t : string) : Prop :=
  String.eqb (strip t) (btn_ref btn) = false
  /\ String.eqb (strip t) (btn_howto btn) = false
  /\ String.eqb (strip t) (btn_support btn) = false
  /\ String.eqb (strip t) (btn_submit btn) = false.

Definition default_buttons : buttons :=
  {| btn_ref := "Earn"; btn_howto := "How"; btn_support := "Support";
     btn_submit := "Submit" |}.

(** ** [maybe_send_actions_under_thread]

    [last_action_prompt] maps a user to the number of forwarded messages
    and the time of the last prompt; [every] and [cooldown_hours] are the
    two environment settings read as integers. The result tells whether
    the prompt is sent. *)

(** [datetime.min] in UTC, in microseconds since 1970. *)
Definition datetime_min_utc : Z := (-62135596800000000)%Z.

Definition hours (n : Z) : Z := (n * 3600 * 1000000)%Z.

Definition maybe_send_actions_under_thread (every cooldown_hours now tg_id : Z)
    (last_action_prompt : gmap Z (Z * Z)) : gmap Z (Z * Z) * bool :=
  let '(cnt, last_ts) :=
    default (0%Z, datetime_min_utc) (last_action_prompt !! tg_id) in
  let cnt := (cnt + 1)%Z in
  let cooldown_ok := (hours cooldown_hours <=? now - last_ts)%Z in
  let should := (cnt mod Z.max 1 every =? 0)%Z || cooldown_ok in
  (<[tg_id := (cnt, if should then now else last_ts)]> last_action_prompt,
   should).

(** Consecutive calls for one user at the given times: whether each of
    them sends the prompt. *)
Fixpoint prompts (every cooldown_hours tg_id : Z) (times : list Z)
    (st : gmap Z (Z * Z)) : list bool :=
  match times with
  | [] => []
  | now :: rest =>
      let r := maybe_send_actions_under_thread every cooldown_hours now tg_id st in
      snd r :: prompts every cooldown_hours tg_id rest (fst r)
  end.

(** The counter kept for a user. *)
Definition prompt_counter (st : gmap Z (Z * Z)) (tg_id : Z) : Z :=
  fst (default (0%Z, datetime_min_utc) (st !! tg_id)).

(** ** [sla_monitor_loop]: one round of the report *)

Record ticket := {
  tk_tg_id : Z;
  tk_topic_id : Z;
  tk_username : option string;
  tk_age : Z;
}.

(** The [for r in rows] loop: [i] counts the lines written so far; the
    result is the set of notified users and the numbered lines added. *)
Fixpoint sla_scan (rows : list ticket) (already_notified : gset Z) (i : nat)
  : gset Z * list (nat * ticket) :=
  match rows with
  | [] => (already_notified, [])
  | r :: rest =>
      if bool_decide (tk_tg_id r ∈ already_notified)
      then sla_scan rest already_notified i
      else
        let notified := {[ tk_tg_id r ]} ∪ already_notified in
        if (20 <=? S i)%nat then (notified, [(S i, r)])
        else
          let '(n, lines) := sla_scan rest notified (S i) in
          (n, (S i, r) :: lines)
  end.

Inductive sla_report :=
  | NoReport                               (* nothing to send *)
  | Report (lines : list (nat * ticket))   (* the header and these lines *)
  | ReportFailed.                          (* the send raised; a warning is logged *)

(** The body of the [while True] loop for the rows the query returned. *)
Definition sla_poll (rows : list ticket) (send_raises : bool)
    (already_notified : gset Z) : gset Z * sla_report :=
  match rows with
  | [] => (∅, NoReport)
  | _ =>
      let '(n, lines) := sla_scan rows already_notified 0 in
      (n, if send_raises then ReportFailed else Report lines)
  end.

(** Consecutive rounds of the loop, each with the rows its query returns
    and whether its send raises: the set after the last one and what the
    rounds sent, in order. *)
Fixpoint sla_rounds (rounds : list (list ticket * bool))
    (already_notified : gset Z) : gset Z * list sla_report :=
  match rounds with
  | [] => (already_notified, [])
  | (rows, raises) :: rest =>
      let '(n, rep) := sla_poll rows raises already_notified in
      let '(n', reps) := sla_rounds rest n in
      (n', rep :: reps)
  end.

(** The users of the lines of a report. *)
Definition reported (lines : list (nat * ticket)) : list Z :=
  (fun l => tk_tg_id (snd l)) <$> lines.

(** ** [cleanup_broadcast_history] and the stored procedure *)

(** [DELETE FROM broadcast_history WHERE created_at < now() - INTERVAL
    '360 days'], the body of [auto_cleanup_broadcasts] and the fallback
    statement alike. *)
Definition auto_cleanup_broadcasts (now : Z) (table : list HistoryRow)
  : list HistoryRow :=
  List.filter (fun r => negb (h_created_at r <? now - days 360)%Z) table.

Inductive cleanup_reply :=
  | CleanedByProcedure
  | CleanedByDelete (deleted : nat)
  | CleanupError.

(** [call_raises]: the [CALL] raises (the procedure is missing, say);
    [delete_raises]: the fallback [DELETE] raises as well. *)
Definition cleanup_broadcast_history (call_raises delete_raises : bool)
    (now : Z) (table : list HistoryRow) : list HistoryRow * cleanup_reply :=
  if call_raises then
    if delete_raises then (table, CleanupError)
    else (auto_cleanup_broadcasts now table,
          CleanedByDelete (length table
                           - length (auto_cleanup_broadcasts now table)))
  else (auto_cleanup_broadcasts now table, CleanedByProcedure).

(** ** The settings table and [_get_topic_id]

    [settings(key TEXT PRIMARY KEY, value TEXT)]: a key has at most one
    row, whose value may be [NULL]. *)

(** [INSERT ... ON CONFLICT(key) DO UPDATE SET value=EXCLUDED.value] *)
Definition set_setting (key value : string)
    (db : gmap string (option string)) : gmap string (option string) :=
  <[key := Some value]> db.

(** [str(row["value"])] *)
Definition py_str (v : option string) : string :=
  match v with
  | Some s => s
  | None => "None"
  end.

Fixpoint decimal_value (acc : Z) (s : string) : Z :=
  match s with
  | EmptyString => acc
  | String c s' =>
      decimal_value (acc * 10 + (Z.of_nat (nat_of_ascii c) - 48))%Z s'
  end.

(** The default of [sys.get_int_max_str_digits()]: [int] refuses a text
    with more digits, and [str] a number with more. *)
Definition int_max_str_digits : nat := 4300.

(** [int(s)] for a text that passed [isdigit]: [None] stands for the
    [ValueError] raised when a character is not a decimal digit or when
    there are more digits than the limit. *)
Definition py_int (s : string) : option Z :=
  if str_forall is_decimal s && (String.length s <=? int_max_str_digits)%nat
  then Some (decimal_value 0 s) else None.

(** [_get_topic_id] of the PRO module (the function of the same body in the
    referral module is [get_topic_id]): [None] stands for the exception. *)
Definition _get_topic_id (db : gmap string (option string)) (key : string)
  : option Z :=
  match db !! key with
  | Some v => if str_isdigit (py_str v) then py_int (py_str v) else Some 0%Z
  | None => Some 0%Z
  end.

(** ** The registry as the handlers leave it *)

(** The operator a handler call acts for. *)
Definition operator_of (h : handler_call) : Z :=
  match h with
  | Callback _ who => who
  | Incoming m => from_user_id m
  | ConfirmCb _ who => who
  end.

(** The registries that the handlers produce from the empty one. (The
    worker writes to the registry once, by [pro_states.pop(admin_id, None)],
    which is what [pro:cancel] does.) *)
Inductive reachable : pro_states -> Prop :=
  | reachable_empty : reachable empty_states
  | reachable_step p h : reachable p -> reachable (apply_handler p h).

(** Every key is bound to a dictionary of the store, and no dictionary is
    bound to two keys. *)
Definition separate (p : pro_states) : Prop :=
  (forall k l, bindings p !! k = Some l -> is_Some (objects p !! l))
  /\ (forall k k' l,
        bindings p !! k = Some l -> bindings p !! k' = Some l -> k = k').

(** The registry after the handlers that arrive at the [n] suspensions
    from time [t] on. *)
Fixpoint handled (w : world) (t n : nat) (p : pro_states) : pro_states :=
  match n with
  | O => p
  | S n' => handled w (S t) n' (foldl apply_handler p (arrivals w t))
  end.

(** Between [s] and [s'] some suspensions took place, and the registry of
    [s'] is the one of [s] after the handlers that arrived at them. *)
Definition served (w : world) (s s' : wstate) : Prop :=
  exists n, tick s' = tick s + n
            /\ states s' = handled w (tick s) n (states s).

(** ** The dialogue of the simple broadcast

    [broadcast_states] maps an operator to a dictionary. The code builds
    three kinds of them: [{"step": "wait", "msg": None}] in
    [cmd_broadcast_start], which [admin_broadcast_flow] turns into
    [{"step": "confirm", "msg": m}], and [{"mode": ...}] in the callbacks
    of the settings panels. A handler is taken to run without another
    handler writing to [broadcast_states] in between. *)

Inductive b_dict :=
  | Wait                      (* {"step": "wait", "msg": None} *)
  | Confirm (msg : Message)   (* {"step": "confirm", "msg": msg} *)
  | Mode (mode : string).     (* {"mode": mode} *)

Inductive flow_outcome :=
  | Ignored                               (* [return] without a word *)
  | WrongTopic                            (* "Запускай команду в теме ..." *)
  | NoAccess                              (* "У тебя нет доступа к рассылке." *)
  | AskMessage                            (* "Отправь одно сообщение ..." *)
  | AskConfirm                            (* "Готово. Напиши 'OK' ..." *)
  | Cancelled                             (* "Отменено." *)
  | Done (msg_obj : Message) (t : tally)  (* the loop ran; "Готово. Отправлено ..." *)
  | TextUpdated                           (* "Текст обновлён. ..." *)
  | StepKeyError.                         (* [st["step"]] raises [KeyError] *)

(** [btid and m.message_thread_id != btid] *)
Definition other_topic (btid : Z) (thread : option Z) : bool :=
  negb (btid =? 0)%Z && negb (bool_decide (thread = Some btid)).

(** [cmd_broadcast_start]; [btid] is what [get_broadcast_topic_id] returns,
    [allowed] what [can_broadcast] returns, [thread] the thread of the
    message. *)
Definition cmd_broadcast_start (btid : Z) (allowed : bool)
    (thread : option Z) (uid : Z) (broadcast_states : gmap Z b_dict)
  : gmap Z b_dict * flow_outcome :=
  if other_topic btid thread then (broadcast_states, WrongTopic)
  else if negb allowed then (broadcast_states, NoAccess)
  else (<[uid := Wait]> broadcast_states, AskMessage).

(** [(m.text or <empty>).strip().lower()] *)
Definition command (m : Message) : string :=
  py_lower (strip (or_empty (text m))).

Definition admin_broadcast_flow (w : world) (btid : Z) (thread : option Z)
    (m : Message) (broadcast_states : gmap Z b_dict)
  : gmap Z b_dict * flow_outcome :=
  match broadcast_states !! from_user_id m with
  | None => (broadcast_states, Ignored)
  | Some st =>
      if other_topic btid thread then (broadcast_states, Ignored)
      else
        match st with
        | Mode _ => (broadcast_states, StepKeyError)
        | Wait =>
            (<[from_user_id m := Confirm m]> broadcast_states, AskConfirm)
        | Confirm msg_obj =>
            if String.eqb (command m) "cancel" then
              (delete (from_user_id m) broadcast_states, Cancelled)
            else if String.eqb (command m) "ok" then
              (delete (from_user_id m) broadcast_states,
               Done msg_obj (admin_broadcast_flow_ok w msg_obj))
            else
              (<[from_user_id m := Confirm m]> broadcast_states, TextUpdated)
        end
  end.

(** What [cb_buttons] does to [broadcast_states], for callback data
    ["btns:" ++ act]. *)
Definition cb_buttons (act : string) (uid : Z)
    (broadcast_states : gmap Z b_dict) : gmap Z b_dict :=
  if String.eqb act "edit" then
    <[uid := Mode "edit_buttons"]> broadcast_states
  else if String.eqb act "add" then
    <[uid := Mode "add_button"]> broadcast_states
  else broadcast_states.

(** The messages [ms] handled one after the other. *)
Definition dialogue (w : world) (btid : Z) (thread : option Z)
    (ms : list Message) (broadcast_states : gmap Z b_dict) : gmap Z b_dict :=
  foldl (fun bs m => fst (admin_broadcast_flow w btid thread m bs))
        broadcast_states ms.

(** A message of [uid] that is neither of the two commands. *)
Definition plain (uid : Z) (m : Message) : Prop :=
  from_user_id m = uid
  /\ String.eqb (command m) "cancel" = false
  /\ String.eqb (command m) "ok" = false.

(** ** The button texts: [edit_buttons_reply] and [get_setting] *)

(** [s.split(sep)] for a one-character separator. *)
Fixpoint split_on (sep : ascii) (s : string) : list string :=
  match s with
  | EmptyString => [EmptyString]
  | String c s' =>
      if Ascii.eqb c sep then EmptyString :: split_on sep s'
      else match split_on sep s' with
           | p :: ps => String c p :: ps
           | [] => [String c EmptyString]
           end
  end.

(** [get_setting] of [main.py]: the stored value unless it is missing or
    [NULL], else [default or <empty>]. *)
Definition get_setting (db : gmap string (option string)) (key : string)
    (default : option string) : string :=
  match db !! key with
  | Some (Some value) => value
  | _ => or_empty default
  end.

(** The four texts as [client_router] reads them; [defaults] holds the
    four default texts of the calls. *)
Definition client_buttons (defaults : buttons)
    (db : gmap string (option string)) : buttons :=
  {| btn_ref := get_setting db "btn_ref_text" (Some (btn_ref defaults));
     btn_howto := get_setting db "btn_howto_text" (Some (btn_howto defaults));
     btn_support :=
       get_setting db "btn_support_text" (Some (btn_support defaults));
     btn_submit :=
       get_setting db "btn_submit_text" (Some (btn_submit defaults)) |}.

Inductive buttons_outcome :=
  | NoDialogue                    (* [return] without a word *)
  | NeedThreeButtons              (* "Нужно 3 кнопки через |" *)
  | ButtonsUpdated                (* "Кнопки обновлены у всех клиентов." *)
  | ButtonTextEmpty               (* "Текст пуст." *)
  | ButtonAdded (title : string)  (* "Добавлена новая кнопка: ..." *)
  | TextAttributeError.           (* [m.text] is [None] *)

(** [edit_buttons_reply] for a message with text [text] from [uid];
    [custom_buttons] holds the titles of the table of that name. *)
Definition edit_buttons_reply (text : option string) (uid : Z)
    (broadcast_states : gmap Z b_dict) (db : gmap string (option string))
    (custom_buttons : list string)
  : gmap Z b_dict * gmap string (option string) * list string
    * buttons_outcome :=
  match broadcast_states !! uid with
  | Some (Mode mode) =>
      if String.eqb mode "edit_buttons" then
        match text with
        | None => (broadcast_states, db, custom_buttons, TextAttributeError)
        | Some t =>
            match strip <$> split_on "|" t with
            | [ref; how; sup] =>
                (delete uid broadcast_states,
                 set_setting "btn_support_text" sup
                   (set_setting "btn_howto_text" how
                      (set_setting "btn_ref_text" ref db)),
                 custom_buttons, ButtonsUpdated)
            | _ => (broadcast_states, db, custom_buttons, NeedThreeButtons)
            end
        end
      else if String.eqb mode "add_button" then
        match text with
        | None => (broadcast_states, db, custom_buttons, TextAttributeError)
        | Some t =>
            match strip t with
            | EmptyString =>
                (broadcast_states, db, custom_buttons, ButtonTextEmpty)
            | new_btn =>
                (delete uid broadcast_states, db, custom_buttons ++ [new_btn],
                 ButtonAdded new_btn)
            end
        end
      else (broadcast_states, db, custom_buttons, NoDialogue)
  | _ => (broadcast_states, db, custom_buttons, NoDialogue)
  end.

(** The settings after [edit_buttons_reply]. *)
Definition settings_after
    (r : gmap Z b_dict * gmap string (option string) * list string
         * buttons_outcome) : gmap string (option string) :=
  snd (fst (fst r)).

(** * Properties *)

(** ** Strings *)

Lemma str_app_assoc a b c : (a +:+ b) +:+ c = a +:+ (b +:+ c).
Proof.
  induction a as [|x a IH]; [done|].
  change (String x ((a +:+ b) +:+ c) = String x (a +:+ (b +:+ c))).
  by rewrite IH.
Qed.

Lemma str_take_length n s : String.length (str_take n s) <= n.
Proof.
  revert s. induction n as [|n IH]; intros [|c s]; simpl; try lia.
  specialize (IH s). lia.
Qed.

Lemma str_take_prefix n s : exists rest, s = str_take n s +:+ rest.
Proof.
  revert s. induction n as [|n IH]; intros s.
  - exists s. by destruct s.
  - destruct s as [|c s]; [by exists EmptyString|].
    destruct (IH s) as [rest Hrest]. exists rest.
    change (String c s = String c (str_take n s +:+ rest)). by f_equal.
Qed.

Lemma str_take_all n s : String.length s <= n -> str_take n s = s.
Proof.
  revert s. induction n as [|n IH]; intros [|c s]; simpl; intros H;
    try done; try lia.
  f_equal. apply IH. lia.
Qed.

(** ** The registry *)

Lemma get_setitem k d p : get (setitem k d p) k = Some (fresh (dom (objects p))).
Proof. unfold get, setitem; simpl. apply lookup_insert_eq. Qed.

Lemma get_setitem_ne k k' d p : k <> k' -> get (setitem k d p) k' = get p k'.
Proof. intros H. unfold get, setitem; simpl. by apply lookup_insert_ne. Qed.

Lemma objects_setitem k d p l d' :
  objects p !! l = Some d' -> objects (setitem k d p) !! l = Some d'.
Proof.
  intros H. unfold setitem; simpl. rewrite lookup_insert_ne; [done|].
  intros <-. assert (Hin : fresh (dom (objects p)) ∈ dom (objects p)).
  { apply elem_of_dom. eauto. }
  by apply is_fresh in Hin.
Qed.

Lemma lookup_state_setitem k d p : lookup_state (setitem k d p) k = Some d.
Proof.
  unfold lookup_state. rewrite get_setitem. simpl. f_equal.
  unfold deref, setitem; simpl. by rewrite lookup_insert_eq.
Qed.

Lemma lookup_state_pop k p : lookup_state (pop k p) k = None.
Proof. unfold lookup_state, get, pop; simpl. by rewrite lookup_delete_eq. Qed.

(** ** The PRO worker: what a pass and the loop do to the state *)

Lemma counts_app (a b : list (call * bool)) :
  succeeded_count (a ++ b) = succeeded_count a + succeeded_count b
  /\ raised_count (a ++ b) = raised_count a + raised_count b.
Proof.
  unfold succeeded_count, raised_count.
  by rewrite !List.filter_app, !length_app.
Qed.


Lemma recipients_transport w msg (uids : list Z) :
  recipients (transport w msg <$> uids) = uids.
Proof.
  unfold recipients in *. induction uids as [|u uids IH]; [done|].
  rewrite !fmap_cons, IH. f_equal. unfold transport.
  by destruct (String.eqb _ _).
Qed.

Lemma extends_refl s : extends s s [].
Proof.
  unfold extends, succeeded_count, raised_count; simpl.
  rewrite !app_nil_r. repeat split; lia.
Qed.

Lemma extends_trans s1 s2 s3 a b :
  extends s1 s2 a -> extends s2 s3 b -> extends s1 s3 (a ++ b).
Proof.
  intros (Hc1 & Hs1 & Hf1 & Hd1 & Hh1 & Hn1) (Hc2 & Hs2 & Hf2 & Hd2 & Hh2 & Hn2).
  destruct (counts_app a b) as [Ha Hb].
  unfold extends. rewrite Hc2, Hc1, Hs2, Hs1, Hf2, Hf1, Hd2, Hd1, Hh2, Hh1, Hn2, Hn1.
  rewrite Ha, Hb, length_app, replicate_add, <- !app_assoc.
  repeat split; lia.
Qed.

Section Worker.
Context (w : world) (polls : nat) (admin_id : Z) (msg : Message).
Context (tg_ids : list Z).

Lemma extends_suspend s : extends s (suspend w s) [].
Proof.
  unfold extends, succeeded_count, raised_count; simpl.
  rewrite !app_nil_r. repeat split; lia.
Qed.

(** The pause wait makes no call and changes no counter, however it
    ends; it ends only in [Continue], with [paused] false in the
    dictionary held, or in [Polling], with [paused] still true. *)
Lemma wait_paused_spec n l s :
  match wait_paused w n l s with
  | Continue s' =>
      extends s s' [] /\ flag (d_paused (deref (states s') l)) = false
  | Polling s' =>
      extends s s' [] /\ flag (d_paused (deref (states s') l)) = true
  | _ => False
  end.
Proof.
  revert s. induction n as [|n IH]; intros s; simpl.
  - destruct (flag _) eqn:E; split; auto using extends_refl.
  - destruct (flag _) eqn:E; [|split; auto using extends_refl].
    specialize (IH (suspend w s)).
    destruct (wait_paused w n l (suspend w s)); try done;
      destruct IH as [IH ?]; split; try done;
      apply (extends_trans _ _ _ [] [] (extends_suspend s) IH).
Qed.

(** The [try] block and the delay after it: one transport call for the
    recipient, one counter incremented, one delay requested. *)
Lemma attempt_spec uid s :
  extends s (sleep_for w pro_delay (attempt w msg uid s)) [transport w msg uid].
Proof.
  unfold attempt, transport, extends, succeeded_count, raised_count.
  destruct (String.eqb _ _);
    [destruct (send_raises w uid)|destruct (copy_raises w uid)];
    simpl; repeat split; lia.
Qed.

Lemma report_spec total s :
  match report w total s with
  | Continue s' | Raised s' => extends s s' []
  | _ => False
  end.
Proof.
  unfold report. destruct (edit_raises _ _); simpl.
  - apply extends_suspend.
  - unfold extends, succeeded_count, raised_count; simpl.
    rewrite !app_nil_r. repeat split; lia.
Qed.

(** One pass through the loop body. *)
Lemma iteration_spec uid s :
  match iteration w polls admin_id msg tg_ids uid s with
  | Continue s' | Raised s' => extends s s' [transport w msg uid]
  | Break s' => s' = s /\ break_condition admin_id s
  | Polling s' => extends s s' []
  end.
Proof.
  unfold iteration, break_condition, not_st.
  destruct (get (states s) admin_id) as [l|]; [|done].
  destruct (dict_truthy _) eqn:Et; simpl; [|auto].
  destruct (flag (d_stopped _)) eqn:Es; [auto|].
  pose proof (wait_paused_spec polls l s) as Hw.
  destruct (wait_paused w polls l s) as [s1| | |s1]; try done;
    destruct Hw as [Hw _]; [|done].
  pose proof (attempt_spec uid s1) as Ha.
  set (s3 := sleep_for w pro_delay (attempt w msg uid s1)) in *.
  assert (H13 : extends s s3 [transport w msg uid])
    by apply (extends_trans _ _ _ [] _ Hw Ha).
  destruct (progress_due tg_ids uid s3); [|done].
  pose proof (report_spec (length tg_ids) s3) as Hr.
  destruct (report w (length tg_ids) s3); try done;
    rewrite <- (app_nil_r [_]); by eapply extends_trans.
Qed.

Lemma for_loop_app pre post s :
  for_loop w polls admin_id msg tg_ids (pre ++ post) s =
  match for_loop w polls admin_id msg tg_ids pre s with
  | Continue s1 => for_loop w polls admin_id msg tg_ids post s1
  | other => other
  end.
Proof.
  revert s. induction pre as [|uid pre IH]; intros s; simpl; [done|].
  by destruct (iteration _ _ _ _ _ _ _).
Qed.

(** The loop over [rest]: it attempts a prefix [done] of [rest], in
    order, one transport call each; the prefix is all of [rest] when the
    loop is exhausted, and a [break] happens at a boundary where its
    condition holds. *)
Lemma for_loop_spec rest s :
  exists done todo,
    rest = done ++ todo
    /\ extends s (flow_state (for_loop w polls admin_id msg tg_ids rest s))
               (transport w msg <$> done)
    /\ match for_loop w polls admin_id msg tg_ids rest s with
       | Continue _ => todo = []
       | Break s' => todo <> [] /\ break_condition admin_id s'
       | Raised _ => done <> []
       | Polling _ => todo <> []
       end.
Proof.
  revert s. induction rest as [|uid rest IH]; intros s; simpl.
  - exists [], []. split; [done|]. split; [apply extends_refl|done].
  - pose proof (iteration_spec uid s) as Hi.
    destruct (iteration w polls admin_id msg tg_ids uid s) as [s1|s1|s1|s1].
    + destruct (IH s1) as (done & todo & -> & He & Hm).
      exists (uid :: done), todo. split; [done|]. split.
      * apply (extends_trans _ _ _ [_] _ Hi He).
      * destruct (for_loop _ _ _ _ _ _ _); try done.
    + destruct Hi as [-> Hb]. exists [], (uid :: rest).
      split; [done|]. split; [apply extends_refl|done].
    + exists [uid], rest. split; [done|]. split; done.
    + exists [], (uid :: rest). split; [done|]. split; done.
Qed.

Lemma prelude_fields s :
  sent (prelude w s) = 0 /\ failed (prelude w s) = 0
  /\ calls (prelude w s) = calls s /\ sleeps (prelude w s) = sleeps s
  /\ history (prelude w s) = history s
  /\ notices (prelude w s)
     = notices s ++ [Started (length (fetch_unbanned (users w)))].
Proof. by repeat split. Qed.

Lemma epilogue_fields total s :
  let s' := epilogue w admin_id msg total s in
  sent s' = sent s /\ failed s' = failed s
  /\ calls s' = calls s /\ sleeps s' = sleeps s
  /\ (exists r, history s' = history s ++ [r] /\ written admin_id msg r (sent s) total)
  /\ notices s' = notices s ++ [Finished (sent s) total (failed s)]
  /\ lookup_state (states s') admin_id = None.
Proof.
  simpl. repeat split; try done.
  - eexists. split; [reflexivity|]. by repeat split.
  - apply lookup_state_pop.
Qed.

End Worker.

Lemma iteration_break w polls admin_id msg tg_ids uid s :
  break_condition admin_id s ->
  iteration w polls admin_id msg tg_ids uid s = Break s.
Proof.
  unfold break_condition, iteration, not_st.
  destruct (get (states s) admin_id) as [l|]; [|done].
  intros [-> | ->]; [done|]. by destruct (dict_truthy _).
Qed.

(** At a boundary where the [break] condition holds the loop makes no
    further pass, whatever is left. *)
Lemma for_loop_break w polls admin_id msg tg_ids rest s :
  break_condition admin_id s ->
  flow_state (for_loop w polls admin_id msg tg_ids rest s) = s
  /\ match for_loop w polls admin_id msg tg_ids rest s with
     | Continue _ | Break _ => True
     | _ => False
     end.
Proof.
  intros Hb. destruct rest as [|uid rest]; simpl; [done|].
  by rewrite iteration_break.
Qed.

(** ** The simple broadcast *)



(** ** The counters *)



(** ** Stop, missing state, history *)


Lemma lookup_state_none admin_id s :
  lookup_state (states s) admin_id = None -> break_condition admin_id s.
Proof.
  unfold lookup_state, break_condition.
  by destruct (get (states s) admin_id).
Qed.

(** From a boundary where the [break] condition holds the worker goes
    straight to its end. *)
Lemma run_broadcast_from_break w polls admin_id msg s0 pre post s1 :
  fetch_unbanned (users w) = pre ++ post ->
  for_loop w polls admin_id msg (pre ++ post) pre (prelude w s0) = Continue s1 ->
  break_condition admin_id s1 ->
  run_broadcast w polls admin_id msg s0
  = Returned (epilogue w admin_id msg (length (pre ++ post)) s1)
  /\ extends (prelude w s0) s1 (transport w msg <$> pre).
Proof.
  intros Hsplit Hloop Hb. split.
  - unfold run_broadcast. rewrite Hsplit, for_loop_app, Hloop.
    destruct (for_loop_break w polls admin_id msg (pre ++ post) post s1 Hb)
      as [Hst Hk].
    destruct (for_loop _ _ _ _ _ post s1); try done; simpl in Hst; by subst.
  - destruct (for_loop_spec w polls admin_id msg (pre ++ post) pre (prelude w s0))
      as (done & todo & Hpre & He & Hm).
    rewrite Hloop in He, Hm. subst todo. rewrite app_nil_r in Hpre.
    by subst done.
Qed.




(** C10. If the registry has no entry for the operator when the loop
    starts, the worker makes no transport call, and still returns after
    writing one history row with [sent_count = 0] and [total_users] the
    number of resolved recipients, and after announcing the end of the
    batch with that tally. *)
Theorem C10_missing_state (w : world) (polls : nat) (admin_id : Z)
    (msg : Message) (s0 : wstate) :
  lookup_state (states (prelude w s0)) admin_id = None ->
  exists s r,
    run_broadcast w polls admin_id msg s0 = Returned s
    /\ calls s = calls s0
    /\ history s = history s0 ++ [r]
    /\ h_sent_count r = 0%Z
    /\ h_total_users r = Z.of_nat (length (fetch_unbanned (users w)))
    /\ notices s = notices s0 ++
         [Started (length (fetch_unbanned (users w)));
          Finished 0 (length (fetch_unbanned (users w))) 0].
Proof.
  intros Hnone.
  destruct (run_broadcast_from_break w polls admin_id msg s0 []
              (fetch_unbanned (users w)) (prelude w s0) eq_refl eq_refl
              (lookup_state_none _ _ Hnone)) as [Hrun _].
  simpl in Hrun. rewrite Hrun.
  do 2 eexists. split; [reflexivity|]. simpl.
  rewrite <- app_assoc. by repeat split.
Qed.

(** The operator cancels before the loop starts: no call, one history row
    with [sent_count = 0] and [total_users = 2], and the final tally. *)
Lemma C10_missing_state_witness :
  exists s r,
    run_broadcast (cancelled_early three_users 7) 0 7 (text_message 7 "hi")
      (initial (confirmed 7 (text_message 7 "hi")) []) = Returned s
    /\ calls s = []
    /\ history s = [] ++ [r]
    /\ h_sent_count r = 0%Z
    /\ h_total_users r = Z.of_nat (length (fetch_unbanned three_users))
    /\ notices s = [] ++
         [Started (length (fetch_unbanned three_users));
          Finished 0 (length (fetch_unbanned three_users)) 0].
Proof.
  apply (C10_missing_state (cancelled_early three_users 7) 0 7
           (text_message 7 "hi")
           (initial (confirmed 7 (text_message 7 "hi")) [])).
  vm_compute; reflexivity.
Defined.

Lemma str_take_length_min n s :
  String.length (str_take n s) = Nat.min n (String.length s).
Proof.
  revert s. induction n as [|n IH]; intros [|c s]; simpl; try done.
  by rewrite IH.
Qed.

(** What [msg.text or msg.caption or <empty>] is: the text when there is
    one that is not empty, else the caption when there is one that is not
    empty, else the empty string. *)
Lemma str_or_spec (a b : option string) :
  (forall t, a = Some t -> t <> EmptyString -> str_or a b = t)
  /\ (forall c, a = None \/ a = Some EmptyString ->
                b = Some c -> c <> EmptyString -> str_or a b = c)
  /\ (a = None \/ a = Some EmptyString ->
      b = None \/ b = Some EmptyString -> str_or a b = EmptyString).
Proof.
  split; [|split].
  - intros t -> Ht. by destruct t.
  - intros c [-> | ->] -> Hc; by destruct c.
  - by intros [-> | ->] [-> | ->].
Qed.

Example stored_text_of_text :
  stored_text (text_message 7 "hi") = "hi"%string.
Proof. reflexivity. Qed.

Example stored_text_of_caption :
  stored_text (photo_message 7 (Some "promo"%string)) = "promo"%string.
Proof. reflexivity. Qed.

Example stored_text_of_bare_photo :
  stored_text (photo_message 7 None) = EmptyString.
Proof. reflexivity. Qed.

(** C8. When the loop of the PRO worker ends, by exhaustion of the
    recipients or by [break], the worker returns and the history table has
    exactly one row more than before, holding the counters and the first
    4000 characters of the payload; the payload is the text of the
    message when it has one that is not empty, else its caption when it
    has one that is not empty, else the empty string. When the loop does
    not end that way the table is unchanged, so there is never more than
    one row for a run. *)
Theorem C8_one_history_record (w : world) (polls : nat) (admin_id : Z)
    (msg : Message) (s0 : wstate) :
  let tg_ids := fetch_unbanned (users w) in
  let payload := str_or (text msg) (caption msg) in
  match for_loop w polls admin_id msg tg_ids tg_ids (prelude w s0) with
  | Continue s1 | Break s1 =>
      exists s r,
        run_broadcast w polls admin_id msg s0 = Returned s
        /\ history s = history s0 ++ [r]
        /\ h_sent_count r = Z.of_nat (sent s1)
        /\ h_total_users r = Z.of_nat (length tg_ids)
        /\ h_message_text r = Some (str_take text_limit payload)
        /\ String.length (str_take text_limit payload)
           = Nat.min text_limit (String.length payload)
        /\ Z.of_nat text_limit = 4000%Z
        /\ (exists rest, payload = str_take text_limit payload +:+ rest)
        /\ (forall t, text msg = Some t -> t <> EmptyString -> payload = t)
        /\ (forall c, text msg = None \/ text msg = Some EmptyString ->
                      caption msg = Some c -> c <> EmptyString ->
                      payload = c)
        /\ (text msg = None \/ text msg = Some EmptyString ->
            caption msg = None \/ caption msg = Some EmptyString ->
            payload = EmptyString)
  | Raised s1 | Polling s1 =>
      history (result_state (run_broadcast w polls admin_id msg s0))
      = history s0
  end.
Proof.
  intros tg_ids payload.
  destruct (for_loop_spec w polls admin_id msg tg_ids tg_ids (prelude w s0))
    as (done & todo & _ & (_ & _ & _ & _ & Hh & _) & _).
  unfold run_broadcast. fold tg_ids.
  destruct (for_loop w polls admin_id msg tg_ids tg_ids (prelude w s0))
    as [s1|s1|s1|s1]; simpl in Hh; try exact Hh.
  all: destruct (epilogue_fields w admin_id msg (length tg_ids) s1)
         as (_ & _ & _ & _ & (r & Eh & Hw) & _);
       destruct Hw as (_ & _ & _ & Hsent & Htotal & Htext);
       exists (epilogue w admin_id msg (length tg_ids) s1), r;
       rewrite Eh, Hh;
       split; [reflexivity|]; split; [reflexivity|];
       split; [exact Hsent|]; split; [exact Htotal|];
       split; [exact Htext|];
       split; [apply str_take_length_min|];
       split; [reflexivity|];
       split; [apply str_take_prefix|];
       apply str_or_spec.
Qed.

(** ** Failures of the transport and of the progress edit *)

(** In the PRO worker, wherever the loop stands, [failed] is the number of
    attempted recipients whose transport call raised and [sent] the number
    of the others; a raising call never ends the loop. *)
Lemma run_broadcast_failed_exact w polls admin_id msg s0 :
  exists done todo,
    fetch_unbanned (users w) = done ++ todo
    /\ let s := flow_state (for_loop w polls admin_id msg
                              (fetch_unbanned (users w))
                              (fetch_unbanned (users w)) (prelude w s0)) in
       calls s = calls s0 ++ (transport w msg <$> done)
       /\ failed s = raised_count (transport w msg <$> done)
       /\ sent s = succeeded_count (transport w msg <$> done).
Proof.
  destruct (for_loop_spec w polls admin_id msg (fetch_unbanned (users w))
              (fetch_unbanned (users w)) (prelude w s0))
    as (done & todo & Hsplit & (Hc & Hs & Hf & _) & _).
  exists done, todo. split; [done|]. simpl in *. by rewrite Hc, Hs, Hf.
Qed.

(** In the simple broadcast a message that is not a text and has no text
    to fall back to never counts as failed, whatever [copy_message]
    does. *)
Lemma simple_flow_media_never_fails w msg :
  String.eqb (content_type msg) "text" = false ->
  str_truthy (text msg) = false ->
  t_failed (admin_broadcast_flow_ok w msg) = 0
  /\ t_sent (admin_broadcast_flow_ok w msg)
     = length (fetch_unbanned (users w)).
Proof.
  intros Hc Ht. unfold admin_broadcast_flow_ok, simple_loop.
  generalize (simple_delay (BROADCAST_RATE w)) as delay.
  generalize (fetch_unbanned (users w)) as tg_ids. intros tg_ids delay.
  change (length tg_ids) with (t_sent (Tally 0 0 [] [] []) + length tg_ids).
  assert (H0 : t_failed (Tally 0 0 [] [] []) = 0) by done. revert H0.
  generalize (Tally 0 0 [] [] []) as t.
  induction tg_ids as [|uid tg_ids IH]; intros t H0; simpl.
  - split; [done|lia].
  - destruct (IH (simple_iteration w msg delay uid t)) as [-> ->].
    + unfold simple_iteration, simple_send. rewrite Hc, Ht.
      by destruct (copy_raises w uid).
    + split; [done|]. unfold simple_iteration, simple_send. rewrite Hc, Ht.
      destruct (copy_raises w uid); simpl; lia.
Qed.

(** C2. In the simple broadcast a media message without text is copied;
    when the copy raises for user 1 the inner handler swallows the error
    (there is no text to fall back to) and the pass counts the recipient
    as sent: after the loop [sent = 2] and [failed = 0], although the only
    transport call for user 1 raised. *)
Theorem C2_simple_flow_counts_failed_copy_as_sent :
  admin_broadcast_flow_ok (some_unreachable three_users 20 [1%Z])
    (photo_message 7 (Some "promo"%string))
  = Tally 2 0 [(CopyMessage 1, true); (CopyMessage 2, false)]
          [(60 / inject_Z 20)%Q; (60 / inject_Z 20)%Q] [].
Proof. vm_compute. reflexivity. Qed.

(** C6. The control message has been deleted, so every progress edit
    raises. With one recipient the edit after the last (only) send raises
    and the worker crashes: the recipient was attempted, but no history
    row is written, nothing is announced and the operator's state stays in
    the registry. With two recipients of which the first is unreachable,
    [sent] is still 0 after the first pass, the edit is due and raises, and
    the second recipient is never attempted. *)
Theorem C6_edit_failure_aborts :
  (exists s,
      run_broadcast (control_message_deleted [(1%Z, false)] []) 0 7
        (text_message 7 "hi")
        (initial (confirmed 7 (text_message 7 "hi")) []) = Crashed s
      /\ calls s = [(SendMessage 1, false)]
      /\ history s = []
      /\ notices s = [Started 1]
      /\ lookup_state (states s) 7 = Some (confirm_dict (text_message 7 "hi")))
  /\ (exists s,
        run_broadcast (control_message_deleted three_users [1%Z]) 0 7
          (text_message 7 "hi")
          (initial (confirmed 7 (text_message 7 "hi")) []) = Crashed s
        /\ calls s = [(SendMessage 1, true)]
        /\ history s = []
        /\ notices s = [Started 2]
        /\ lookup_state (states s) 7
           = Some (confirm_dict (text_message 7 "hi"))).
Proof.
  split; eexists; (split; [vm_compute; reflexivity|]);
    vm_compute; by repeat split.
Qed.

(** ** The pause wait *)

Lemma suspends_fields w n s :
  tick (suspends w n s) = tick s + n
  /\ sent (suspends w n s) = sent s /\ failed (suspends w n s) = failed s
  /\ calls (suspends w n s) = calls s /\ sleeps (suspends w n s) = sleeps s
  /\ history (suspends w n s) = history s
  /\ notices (suspends w n s) = notices s.
Proof.
  revert s. induction n as [|n IH]; intros s; simpl.
  - repeat split. lia.
  - destruct (IH (suspend w s)) as (-> & -> & -> & -> & -> & -> & ->).
    simpl. repeat split. lia.
Qed.

(** When no handler arrives any more, suspending changes no state. *)
Lemma suspends_idle w n s :
  (forall t, tick s <= t -> arrivals w t = []) ->
  states (suspends w n s) = states s.
Proof.
  revert s. induction n as [|n IH]; intros s Hidle; simpl; [done|].
  rewrite IH.
  - simpl. by rewrite (Hidle (tick s)).
  - intros t Ht. apply Hidle. simpl in Ht. lia.
Qed.

(** The first [k] polls of a wait that finds [paused] set each time. *)
Lemma wait_paused_add w k n l s :
  (forall j, j < k -> flag (d_paused (deref (states (suspends w j s)) l)) = true) ->
  wait_paused w (k + n) l s = wait_paused w n l (suspends w k s).
Proof.
  revert s. induction k as [|k IH]; intros s Hp; simpl; [done|].
  pose proof (Hp 0 ltac:(lia)) as H0. simpl in H0. rewrite H0.
  apply IH. intros j Hj. apply (Hp (S j)). lia.
Qed.

(** A wait on a dictionary with [paused] set, when no handler arrives any
    more, uses up every poll budget. *)
Lemma wait_paused_idle w n l s :
  (forall t, tick s <= t -> arrivals w t = []) ->
  flag (d_paused (deref (states s) l)) = true ->
  wait_paused w n l s = Polling (suspends w n s).
Proof.
  revert s. induction n as [|n IH]; intros s Hidle Hp; simpl; rewrite Hp; [done|].
  apply IH.
  - intros t Ht. apply Hidle. simpl in Ht. lia.
  - simpl. by rewrite (Hidle (tick s)).
Qed.

(** A worker whose first pass does not leave the pause wait is waiting. *)
Lemma run_broadcast_waiting w polls admin_id msg s0 uid rest l s' :
  fetch_unbanned (users w) = uid :: rest ->
  get (states (prelude w s0)) admin_id = Some l ->
  dict_truthy (deref (states (prelude w s0)) l) = true ->
  flag (d_stopped (deref (states (prelude w s0)) l)) = false ->
  wait_paused w polls l (prelude w s0) = Polling s' ->
  run_broadcast w polls admin_id msg s0 = Waiting s'.
Proof.
  intros Hu Hg Ht Hs Hw. unfold run_broadcast. rewrite Hu.
  cbn [for_loop]. unfold iteration, not_st. by rewrite Hg, Ht, Hs, Hw.
Qed.

Lemma stop_while_paused_idle us who t :
  6 <= t -> arrivals (stop_while_paused us who) t = [].
Proof. intros H. do 6 (destruct t as [|t]; [lia|]). done. Qed.

(** With the pause requested before the loop and the stop pressed during
    the wait, a worker with a budget of [3 + n] polls is still waiting
    after all of them, in the state reached by suspending. *)
Lemma stop_while_paused_waits n :
  run_broadcast (stop_while_paused three_users 7) (3 + n) 7
    (text_message 7 "hi") (initial (confirmed 7 (text_message 7 "hi")) [])
  = Waiting
      (suspends (stop_while_paused three_users 7) n
         (suspends (stop_while_paused three_users 7) 3
            (prelude (stop_while_paused three_users 7)
               (initial (confirmed 7 (text_message 7 "hi")) [])))).
Proof.
  apply (run_broadcast_waiting _ _ _ _ _ 1%Z [2%Z] 0);
    try (vm_compute; reflexivity).
  rewrite wait_paused_add.
  - apply wait_paused_idle; [|vm_compute; reflexivity].
    intros t Ht. apply stop_while_paused_idle. exact Ht.
  - intros j Hj. do 3 (destruct j as [|j]; [vm_compute; reflexivity|]). lia.
Qed.

(** C4. The operator pauses before the loop starts and presses stop while
    the worker is in the pause wait, without resuming. The wait tests
    [paused] only: whatever the number of polls, the worker is still in
    the wait, having attempted nobody and written no history row, and
    from the third poll on the state it waits on has both [paused] and
    [stopped] set. *)
Theorem C4_stop_does_not_end_pause :
  (forall polls, exists s,
      run_broadcast (stop_while_paused three_users 7) polls 7
        (text_message 7 "hi")
        (initial (confirmed 7 (text_message 7 "hi")) []) = Waiting s
      /\ calls s = [] /\ sent s = 0 /\ failed s = 0 /\ history s = [])
  /\ (forall n, exists s,
        run_broadcast (stop_while_paused three_users 7) (3 + n) 7
          (text_message 7 "hi")
          (initial (confirmed 7 (text_message 7 "hi")) []) = Waiting s
        /\ lookup_state (states s) 7
           = Some (set_stopped true
                     (set_paused true (confirm_dict (text_message 7 "hi"))))).
Proof.
  split.
  - intros polls.
    do 3 (destruct polls as [|polls];
          [eexists; split; [vm_compute; reflexivity|vm_compute; by repeat split]|]).
    eexists. split; [apply (stop_while_paused_waits polls)|].
    match goal with
    | |- context [suspends ?w polls ?s] =>
        destruct (suspends_fields w polls s) as (_ & -> & -> & -> & _ & -> & _)
    end.
    vm_compute. by repeat split.
  - intros n. eexists. split; [apply stop_while_paused_waits|].
    rewrite suspends_idle; [vm_compute; reflexivity|].
    intros t Ht. apply stop_while_paused_idle. exact Ht.
Qed.

(** ** Starting a broadcast while one is in flight *)

(** The operator has a batch in flight, paused. [pro:new] is answered by
    the request for a message, and the registry entry of the operator is
    replaced: its [paused] entry is gone. *)
Lemma C5_new_overwrites_active_batch :
  lookup_state
    (fst (manage_broadcast "pause" 7 (confirmed 7 (text_message 7 "hi")))) 7
  = Some (set_paused true (confirm_dict (text_message 7 "hi")))
  /\ snd (pro_callback "new" 7
            (fst (manage_broadcast "pause" 7
                    (confirmed 7 (text_message 7 "hi")))))
     = AskForMessage
  /\ lookup_state
       (fst (pro_callback "new" 7
               (fst (manage_broadcast "pause" 7
                       (confirmed 7 (text_message 7 "hi")))))) 7
     = Some wait_msg_dict
  /\ lookup_state
       (fst (pro_callback "new" 7
               (fst (manage_broadcast "pause" 7
                       (confirmed 7 (text_message 7 "hi")))))) 7
     <> lookup_state
          (fst (manage_broadcast "pause" 7
                  (confirmed 7 (text_message 7 "hi")))) 7.
Proof. vm_compute. by repeat split. Qed.

(** C5 (amended). Starting a new broadcast with [pro:new] is never
    rejected, whatever the registry holds for the operator: the operator
    is asked for the message and the operator's key is bound to a new
    dictionary with the single entry [step = wait_msg], so the [paused]
    and [stopped] entries of a batch in flight are no longer in the
    registry. The keys of the other operators and the dictionary objects
    that existed before (the one a running worker holds among them) are
    left as they were. *)
Theorem C5_new_rebinds_state (p : pro_states) (who : Z) :
  snd (pro_callback "new" who p) = AskForMessage
  /\ lookup_state (fst (pro_callback "new" who p)) who = Some wait_msg_dict
  /\ (forall other, other <> who ->
        get (fst (pro_callback "new" who p)) other = get p other)
  /\ (forall l d, objects p !! l = Some d ->
        objects (fst (pro_callback "new" who p)) !! l = Some d).
Proof.
  change (pro_callback "new" who p)
    with (setitem who wait_msg_dict p, AskForMessage).
  cbn [fst snd]. split; [done|]. split; [apply lookup_state_setitem|]. split.
  - intros other Hne. by apply get_setitem_ne.
  - intros l d H. exact (objects_setitem who wait_msg_dict p l d H).
Qed.

(** [pro:new] by operator 7 leaves the key of operator 8 alone. *)
Lemma C5_new_rebinds_state_witness :
  get (fst (pro_callback "new" 7 (confirmed 8 (text_message 8 "hi")))) 8
  = get (confirmed 8 (text_message 8 "hi")) 8.
Proof.
  apply (C5_new_rebinds_state (confirmed 8 (text_message 8 "hi")) 7).
  lia.
Defined.

(** The other two handlers of the start sequence leave the registry as it
    is when a batch is in flight: a further message is ignored without a
    word, and a further confirmation schedules one more worker. *)
Lemma process_broadcast_in_flight m p d :
  lookup_state p (from_user_id m) = Some d ->
  d_step d = Some "confirm"%string ->
  process_broadcast m p = (p, Silent).
Proof.
  unfold lookup_state, process_broadcast, not_st.
  destruct (get p (from_user_id m)) as [l|]; simpl; [|done].
  intros [= <-] Hstep. rewrite Hstep. by destruct (dict_truthy _).
Qed.

Lemma pro_confirm_cb_in_flight who p d m :
  lookup_state p who = Some d ->
  d_msg d = Some m ->
  pro_confirm_cb "pro:confirm_send" who p = (p, ConfirmSpawned who m).
Proof.
  unfold lookup_state. intros Hd Hm.
  change (pro_confirm_cb "pro:confirm_send" who p)
    with (let st := get p who in
          if not_st p st then (p, ConfirmNoActive)
          else match st with
               | None => (p, ConfirmNoActive)
               | Some l => match d_msg (deref p l) with
                           | Some m => (p, ConfirmSpawned who m)
                           | None => (p, ConfirmKeyError)
                           end
               end).
  unfold not_st. destruct (get p who) as [l|]; simpl in *; [|done].
  injection Hd as <-. rewrite Hm.
  unfold dict_truthy. rewrite Hm. by destruct (d_step _).
Qed.

(** ** Delays *)






(** ** The CSV export *)

Example strftime_epoch : strftime 0 = "1970-01-01 00:00:00"%string.
Proof. vm_compute. reflexivity. Qed.

Example strftime_leap_day : strftime 1709251199 = "2024-02-29 23:59:59"%string.
Proof. vm_compute. reflexivity. Qed.

Example strftime_2023 : strftime 1700000000 = "2023-11-14 22:13:20"%string.
Proof. vm_compute. reflexivity. Qed.

(** Two rows, the older one first in the table and outside the last seven
    days: "last7" exports the newer one only, "all" both, the newer one
    first. *)
Example export_two_rows :
  export_cb "last7" 1700000000
    [sample_row 1 1600000000 "old"; sample_row 2 1699999000 "new"]
  = Exported "broadcast-history-last7.csv"
      (csv_header +:+ newline +:+ csv_line (sample_row 2 1699999000 "new")
       +:+ newline)
  /\ export_cb "all" 1700000000
       [sample_row 1 1600000000 "old"; sample_row 2 1699999000 "new"]
     = Exported "broadcast-history-all.csv"
         (csv_header +:+ newline +:+ csv_line (sample_row 2 1699999000 "new")
          +:+ newline +:+ csv_line (sample_row 1 1600000000 "old")
          +:+ newline)
  /\ export_cb "last30" 1700000000 [sample_row 1 1600000000 "old"]
     = NothingFound.
Proof. vm_compute. by repeat split. Qed.

#[global] Instance newer_first_total : Total newer_first.
Proof. intros a b. unfold newer_first. lia. Qed.

#[global] Instance newer_first_trans : Transitive newer_first.
Proof. intros a b c. unfold newer_first. lia. Qed.

Lemma replace_char_spec a b s :
  list_ascii_of_string (replace_char a b s)
  = (fun c => if Ascii.eqb c a then b else c) <$> list_ascii_of_string s.
Proof. induction s as [|c s IH]; simpl; [done|]. by rewrite IH. Qed.

Lemma csv_plain_spec o :
  list_ascii_of_string (csv_plain o)
  = comma_to_space <$> list_ascii_of_string (or_empty o).
Proof. unfold csv_plain. by rewrite replace_char_spec. Qed.

Lemma normalize_steps c :
  (let c1 := if Ascii.eqb c (chr 34) then chr 39 else c in
   let c2 := if Ascii.eqb c1 (chr 10) then " "%char else c1 in
   if Ascii.eqb c2 (chr 13) then " "%char else c2) = normalize c.
Proof.
  unfold normalize. cbv zeta.
  destruct (Ascii.eqb_spec c (chr 34)) as [->|H34]; [done|].
  destruct (Ascii.eqb_spec c (chr 10)) as [->|H10]; [done|].
  simpl. by destruct (Ascii.eqb_spec c (chr 13)).
Qed.

Lemma csv_message_spec o :
  list_ascii_of_string (csv_message o)
  = normalize <$> list_ascii_of_string (or_empty o).
Proof.
  unfold csv_message. rewrite !replace_char_spec, <- !list_fmap_compose.
  apply list_fmap_ext. intros _ c _. apply normalize_steps.
Qed.

(** A row whose message text is [a,b], inside the last seven days: the
    line of the export has the text between double quotes with its comma,
    not with a space in its place. *)
Lemma C9_commas_kept_in_message_text :
  export_cb "last7" 1000 [sample_row 1 990 "a,b"]
  = Exported "broadcast-history-last7.csv"
      (csv_header +:+ newline +:+
       "1," +:+ dquote +:+ "1970-01-01 00:16:30" +:+ dquote +:+
       ",7,pro,text,1,1," +:+ dquote +:+ "a,b" +:+ dquote +:+ newline)
  /\ csv_message (Some "a,b"%string) = "a,b"%string
  /\ csv_message (Some "a,b"%string) <> "a b"%string.
Proof. vm_compute. by repeat split. Qed.

(** C9 (amended). For each of the three time ranges the export takes the
    history rows whose creation time is after the start of the range (all
    rows for the range "all"), newest first. When there is none it answers
    that nothing was found and sends no file; otherwise it sends a file
    whose text is the header line followed by one line per row, in that
    order. In [type] and [media_type] every comma is replaced by a space
    and nothing else is changed. The message text is enclosed in double
    quotes; in it every double quote becomes a single quote and every line
    feed and carriage return a space, and its commas stay as they are. *)
Theorem C9_export (range : time_range) (now : Z) (table : list HistoryRow) :
  let rows := select_history (cutoff_of range now) table in
  StronglySorted newer_first rows
  /\ rows ≡ₚ List.filter (matches (cutoff_of range now)) table
  /\ export_cb (kind_of range) now table
     = match rows with
       | [] => NothingFound
       | _ => Exported ("broadcast-history-" +:+ kind_of range +:+ ".csv")
                (csv_header +:+ newline +:+ csv_lines rows)
       end
  /\ csv_header
     = "id,created_at,admin_id,type,media_type,sent_count,total_users,message_text"%string
  /\ (forall r rest,
        csv_lines (r :: rest)
        = pretty (h_id r) +:+ "," +:+
          dquote +:+ strftime (h_created_at r) +:+ dquote +:+ "," +:+
          pretty (h_admin_id r) +:+ "," +:+
          csv_plain (h_type r) +:+ "," +:+
          csv_plain (h_media_type r) +:+ "," +:+
          pretty (h_sent_count r) +:+ "," +:+
          pretty (h_total_users r) +:+ "," +:+
          dquote +:+ csv_message (h_message_text r) +:+ dquote +:+
          newline +:+ csv_lines rest)
  /\ (forall o, list_ascii_of_string (csv_plain o)
                = comma_to_space <$> list_ascii_of_string (or_empty o))
  /\ (forall o, list_ascii_of_string (csv_message o)
                = normalize <$> list_ascii_of_string (or_empty o))
  /\ normalize "," = ","%char.
Proof.
  intros rows. split; [apply StronglySorted_merge_sort; apply _|].
  split; [apply merge_sort_Permutation|].
  split.
  { subst rows. unfold export_cb.
    destruct range;
      cbv beta iota zeta delta [kind_of cutoff_of String.eqb Ascii.eqb Bool.eqb];
      match goal with
      | |- context [select_history ?c table] =>
          destruct (select_history c table)
      end; reflexivity. }
  split; [done|].
  split; [|split; [apply csv_plain_spec|split; [apply csv_message_spec|done]]].
  intros r rest. unfold csv_lines at 1. cbn [foldr]. unfold csv_line.
  fold (csv_lines rest).
  by rewrite !str_app_assoc.
Qed.

(** ** When the worker returns *)

Lemma unpaused_deref p l : unpaused p -> flag (d_paused (deref p l)) = false.
Proof.
  intros H. unfold deref. destruct (objects p !! l) as [d|] eqn:E; simpl.
  - by apply (H l).
  - done.
Qed.

Lemma unpaused_setitem k d p :
  flag (d_paused d) = false -> unpaused p -> unpaused (setitem k d p).
Proof.
  intros Hd Hp l d'. unfold setitem; simpl.
  destruct (decide (fresh (dom (objects p)) = l)) as [->|Hne].
  - rewrite lookup_insert_eq. by intros [= <-].
  - rewrite lookup_insert_ne; [apply Hp|done].
Qed.

Lemma unpaused_update_obj l f p :
  (forall d, flag (d_paused d) = false -> flag (d_paused (f d)) = false) ->
  unpaused p -> unpaused (update_obj l f p).
Proof.
  intros Hf Hp l' d'. unfold update_obj; simpl.
  destruct (decide (l = l')) as [->|Hne].
  - rewrite lookup_insert_eq. intros [= <-]. by apply Hf, unpaused_deref.
  - rewrite lookup_insert_ne; [apply Hp|done].
Qed.

Lemma unpaused_apply_handler p h :
  no_pause_request h -> unpaused p -> unpaused (apply_handler p h).
Proof.
  intros Hh Hp. destruct h as [act who|m|data who]; simpl in *.
  - unfold pro_callback, manage_broadcast.
    destruct (String.eqb act "new"); [by apply unpaused_setitem|].
    destruct (String.eqb act "templates"); [done|].
    destruct (String.eqb act "history"); [done|].
    destruct (String.eqb_spec act "pause") as [->|_]; [done|].
    destruct (_ || _); [|done].
    destruct (not_st p (get p who)); [done|].
    destruct (get p who) as [l|]; [|done].
    destruct (String.eqb act "resume"); [by apply unpaused_update_obj|].
    destruct (String.eqb act "stop"); [by apply unpaused_update_obj|done].
  - unfold process_broadcast.
    destruct (not_st _ _); [done|].
    destruct (get p (from_user_id m)) as [l|]; [|done].
    destruct (d_step _) as [st|]; [|done].
    destruct (String.eqb st "wait_msg"); [by apply unpaused_setitem|done].
  - unfold pro_confirm_cb.
    destruct (String.eqb data "pro:cancel"); [done|].
    destruct (not_st _ _); [done|].
    destruct (get p who) as [l|]; [|done].
    by destruct (d_msg _).
Qed.

Section Undisturbed.
Context (w : world) (polls : nat) (admin_id : Z) (msg : Message).
Context (tg_ids : list Z).
Hypothesis no_pause : forall t h, h ∈ arrivals w t -> no_pause_request h.
Hypothesis edits_succeed : forall t, edit_raises w t = false.

Lemma unpaused_suspend s : unpaused (states s) -> unpaused (states (suspend w s)).
Proof.
  intros Hp. simpl.
  assert (Hall : forall h, h ∈ arrivals w (tick s) -> no_pause_request h)
    by (intros h; apply no_pause).
  revert Hall. generalize (arrivals w (tick s)) as hs. revert Hp.
  generalize (states s) as p.
  intros p Hp hs. revert p Hp.
  induction hs as [|h hs IH]; intros p Hp Hall; simpl; [done|].
  apply IH.
  - apply unpaused_apply_handler; [apply Hall; by left|done].
  - intros h' Hin. apply Hall. by right.
Qed.

Lemma attempt_states uid s :
  states (attempt w msg uid s) = states (suspend w s).
Proof.
  unfold attempt. destruct (String.eqb _ _);
    [destruct (send_raises w uid)|destruct (copy_raises w uid)]; reflexivity.
Qed.

Lemma iteration_undisturbed uid s :
  unpaused (states s) ->
  match iteration w polls admin_id msg tg_ids uid s with
  | Continue s' => unpaused (states s')
  | Break s' => s' = s
  | _ => False
  end.
Proof.
  intros Hp. unfold iteration.
  destruct (not_st _ _); [done|].
  destruct (get (states s) admin_id) as [l|]; [|done].
  destruct (flag (d_stopped _)); [done|].
  assert (Hw : wait_paused w polls l s = Continue s).
  { destruct polls; simpl; by rewrite (unpaused_deref _ l Hp). }
  rewrite Hw.
  set (s3 := sleep_for w pro_delay (attempt w msg uid s)).
  assert (H3 : unpaused (states s3)).
  { change (states s3) with (states (suspend w (attempt w msg uid s))).
    apply unpaused_suspend. rewrite attempt_states.
    by apply unpaused_suspend. }
  destruct (progress_due tg_ids uid s3); [|done].
  unfold report. rewrite edits_succeed.
  change (unpaused (states (suspend w s3))). by apply unpaused_suspend.
Qed.

Lemma for_loop_undisturbed rest s :
  unpaused (states s) ->
  match for_loop w polls admin_id msg tg_ids rest s with
  | Continue _ | Break _ => True
  | _ => False
  end.
Proof.
  revert s. induction rest as [|uid rest IH]; intros s Hp; simpl; [done|].
  pose proof (iteration_undisturbed uid s Hp) as Hi.
  destruct (iteration _ _ _ _ _ _ _); try done. by apply IH.
Qed.

End Undisturbed.

(** If no handler asks for a pause while the worker runs, no dictionary is
    paused when it starts and no progress edit raises, the worker returns,
    whatever the poll budget, the other handler calls and the transport
    failures. *)
Lemma run_broadcast_returns w polls admin_id msg s0 :
  (forall t h, h ∈ arrivals w t -> no_pause_request h) ->
  (forall t, edit_raises w t = false) ->
  unpaused (states s0) ->
  exists s, run_broadcast w polls admin_id msg s0 = Returned s.
Proof.
  intros Hnp He Hp. unfold run_broadcast.
  assert (Hp' : unpaused (states (prelude w s0))).
  { change (states (prelude w s0))
      with (states (suspend w (suspend w (suspend w (reset_counters s0))))).
    do 3 apply (unpaused_suspend w Hnp). exact Hp. }
  pose proof (for_loop_undisturbed w polls admin_id msg
                (fetch_unbanned (users w)) Hnp He
                (fetch_unbanned (users w)) _ Hp') as Hl.
  destruct (for_loop _ _ _ _ _ _ _); try done; eauto.
Qed.

(** A pause followed by a resume: the worker goes on with the recipient it
    was about to attempt, and every recipient is attempted once, in
    order. *)
Lemma pause_then_resume_continues :
  exists s,
    run_broadcast (pause_then_resume three_users 7) 5 7 (text_message 7 "hi")
      (initial (confirmed 7 (text_message 7 "hi")) []) = Returned s
    /\ calls s = [(SendMessage 1, false); (SendMessage 2, false)]
    /\ sent s = 2 /\ failed s = 0
    /\ tick s = 12.
Proof. eexists. split; [vm_compute; reflexivity|]. vm_compute. by repeat split. Qed.

(** A stop pressed during the pause wait is seen only at the head of the
    pass after the resume: the recipient the worker was waiting on is still
    sent to, the third one is not. *)
Lemma stop_in_pause_then_resume_sends_once_more :
  exists s,
    run_broadcast
      (stop_in_pause_then_resume [(1%Z, false); (2%Z, false); (3%Z, false)] 7)
      5 7 (text_message 7 "hi")
      (initial (confirmed 7 (text_message 7 "hi")) []) = Returned s
    /\ calls s = [(SendMessage 1, false); (SendMessage 2, false)]
    /\ (h_sent_count <$> history s) = [2%Z]
    /\ (h_total_users <$> history s) = [3%Z].
Proof. eexists. split; [vm_compute; reflexivity|]. vm_compute. by repeat split. Qed.

(** When every progress edit raises, the loop never runs to the end of a
    non-empty recipient list: the pass for the last recipient always makes
    the edit. *)
Lemma for_loop_never_completes w polls admin_id msg tg_ids rest s s' :
  (forall t, edit_raises w t = true) ->
  rest <> [] ->
  last rest = last tg_ids ->
  for_loop w polls admin_id msg tg_ids rest s <> Continue s'.
Proof.
  intros He. revert s. induction rest as [|uid rest IH]; intros s Hne Hlast; [done|].
  simpl. destruct (iteration w polls admin_id msg tg_ids uid s) as [s1| | |] eqn:Hi;
    try done.
  destruct rest as [|uid' rest].
  - exfalso. revert Hi. unfold iteration.
    destruct (not_st _ _); [done|].
    destruct (get (states s) admin_id) as [l|]; [|done].
    destruct (flag (d_stopped _)); [done|].
    destruct (wait_paused w polls l s); try done.
    unfold progress_due. simpl in Hlast. rewrite <- Hlast.
    rewrite bool_decide_eq_true_2, orb_true_r by done.
    unfold report. by rewrite He.
  - apply IH; [done|]. by rewrite <- Hlast.
Qed.

(** * Properties of the further parts *)

(** ** [normalize_phone] *)

Lemma str_filter_length f s : String.length (str_filter f s) <= String.length s.
Proof. induction s as [|c s IH]; simpl; [lia|]. destruct (f c); simpl; lia. Qed.

Lemma str_filter_forall f s : str_forall f (str_filter f s) = true.
Proof.
  induction s as [|c s IH]; simpl; [done|].
  destruct (f c) eqn:E; simpl; [by rewrite E|done].
Qed.

Lemma str_filter_id f s : str_forall f s = true -> str_filter f s = s.
Proof.
  induction s as [|c s IH]; simpl; [done|].
  intros [-> Hs]%andb_true_iff. by rewrite IH.
Qed.

(** The three cases of [normalize_phone], on the digits of the text. *)
Lemma normalize_phone_digits raw :
  normalize_phone raw =
  match digits_of raw with
  | String d rest =>
      if (String.length (digits_of raw) =? 11)%nat
         && (Ascii.eqb d "7" || Ascii.eqb d "8")
      then Some ("+7" +:+ rest)
      else if (String.length (digits_of raw) =? 10)%nat && Ascii.eqb d "9"
      then Some ("+7" +:+ digits_of raw)
      else None
  | EmptyString => None
  end.
Proof. by destruct raw. Qed.

(** The digits of a text are its characters that pass [isdigit], in the
    order of the text. *)
Lemma digits_of_filter raw :
  list_ascii_of_string (digits_of raw)
  = List.filter py_isdigit (list_ascii_of_string raw).
Proof.
  unfold digits_of. induction raw as [|c raw IH]; simpl; [done|].
  destruct (py_isdigit c); simpl; by rewrite IH.
Qed.

(** What [normalize_phone] returns: the country code and the last ten
    digits of the text, which has ten digits, the first a 9, or eleven,
    the first a 7 or an 8. *)
Lemma normalize_phone_some (raw p : string) :
  normalize_phone raw = Some p ->
  exists d, p = "+7" +:+ d
            /\ String.length d = 10
            /\ str_forall py_isdigit d = true
            /\ ((digits_of raw = d /\ exists rest, d = String "9" rest)
                \/ (exists c, (c = "7" \/ c = "8")%char
                               /\ digits_of raw = String c d)).
Proof.
  rewrite normalize_phone_digits.
  pose proof (str_filter_forall py_isdigit raw) as Hall.
  fold (digits_of raw) in Hall.
  destruct (digits_of raw) as [|d rest] eqn:E; [done|].
  destruct (_ && _) eqn:C1.
  - intros [= <-]. apply andb_true_iff in C1 as [Hlen Hd].
    apply Nat.eqb_eq in Hlen. simpl in Hlen, Hall.
    apply andb_true_iff in Hall as [_ Hall].
    exists rest. split; [done|]. split; [lia|]. split; [done|].
    right. exists d. split; [|done].
    apply orb_true_iff in Hd as [Hd|Hd]; apply Ascii.eqb_eq in Hd; auto.
  - clear C1. destruct (_ && _) eqn:C2; [|done].
    intros [= <-]. apply andb_true_iff in C2 as [Hlen Hd].
    apply Nat.eqb_eq in Hlen. apply Ascii.eqb_eq in Hd. subst d.
    exists (String "9" rest). split; [done|]. split; [done|]. split; [done|].
    left. split; [done|]. by exists rest.
Qed.

(** X1. A number that [normalize_phone] returns is [+7] followed by ten
    characters that are the last ten digit characters of the text, in the
    order of the text: the characters of the text that pass [isdigit] are
    either exactly these ten, the first of them a 9, or a 7 or an 8
    followed by these ten. *)
Theorem normalize_phone_shape (raw p : string) :
  normalize_phone raw = Some p ->
  exists d, p = "+7" +:+ d
            /\ String.length d = 10
            /\ str_forall py_isdigit d = true
            /\ String.length p = 12
            /\ ((List.filter py_isdigit (list_ascii_of_string raw)
                 = list_ascii_of_string d
                 /\ exists rest, d = String "9" rest)
                \/ (exists c, (c = "7" \/ c = "8")%char
                               /\ List.filter py_isdigit
                                    (list_ascii_of_string raw)
                                  = c :: list_ascii_of_string d)).
Proof.
  intros H.
  destruct (normalize_phone_some raw p H) as (d & -> & Hlen & Hd & Hraw).
  exists d. split; [done|]. split; [done|]. split; [done|]. split.
  - change (S (S (String.length d)) = 12). by rewrite Hlen.
  - rewrite <- digits_of_filter.
    destruct Hraw as [[-> Hnine] | (c & Hc & ->)]; [by left|].
    right. by exists c.
Qed.

Lemma normalize_phone_shape_witness :
  exists d, "+79991234567"%string = "+7" +:+ d
            /\ String.length d = 10
            /\ str_forall py_isdigit d = true
            /\ String.length "+79991234567" = 12
            /\ ((List.filter py_isdigit
                   (list_ascii_of_string "8 (999) 123-45-67")
                 = list_ascii_of_string d
                 /\ exists rest, d = String "9" rest)
                \/ (exists c, (c = "7" \/ c = "8")%char
                               /\ List.filter py_isdigit
                                    (list_ascii_of_string "8 (999) 123-45-67")
                                  = c :: list_ascii_of_string d)).
Proof.
  apply (normalize_phone_shape "8 (999) 123-45-67" "+79991234567").
  vm_compute. reflexivity.
Defined.

(** X2. [normalize_phone] looks at the digit characters only: two texts
    with the same digits in the same order give the same result, whatever
    else they contain. *)
Theorem normalize_phone_formatting (a b : string) :
  digits_of a = digits_of b ->
  normalize_phone a = normalize_phone b.
Proof. intros H. by rewrite !normalize_phone_digits, H. Qed.

Lemma normalize_phone_formatting_witness :
  normalize_phone "+7 (999) 123-45-67" = normalize_phone "7 999 1234567".
Proof.
  apply normalize_phone_formatting. vm_compute. reflexivity.
Defined.

(** X3. A number that [normalize_phone] returns is accepted again and is
    returned unchanged. *)
Theorem normalize_phone_idempotent (raw p : string) :
  normalize_phone raw = Some p -> normalize_phone p = Some p.
Proof.
  intros H. destruct (normalize_phone_some raw p H) as (d & -> & Hlen & Hd & _).
  rewrite normalize_phone_digits.
  assert (Hdig : digits_of ("+7" +:+ d) = String "7" d).
  { change (digits_of ("+7" +:+ d)) with (String "7" (str_filter py_isdigit d)).
    by rewrite str_filter_id. }
  rewrite Hdig. simpl String.length. rewrite Hlen. reflexivity.
Qed.

Lemma normalize_phone_idempotent_witness :
  normalize_phone "+79991234567" = Some "+79991234567"%string.
Proof.
  apply (normalize_phone_idempotent "9991234567").
  vm_compute. reflexivity.
Defined.

(** ** [client_router] *)

Lemma normalize_phone_nonempty t p :
  normalize_phone t = Some p -> exists c t', t = String c t'.
Proof. destruct t as [|c t']; [done|]. eauto. Qed.

(** The branch of [client_router] that a phone number takes. *)
Lemma client_router_phone (btn : buttons) (now1 now2 uid : Z)
    (t p : string) (win : gmap Z Z) :
  not_a_button btn t ->
  normalize_phone t = Some p ->
  client_router btn now1 now2 uid (Some t) win =
  match win !! uid with
  | Some d =>
      if (now1 <=? d)%Z
      then (delete uid win, NumberAccepted p (str_take text_limit t))
      else if negb (now2 <=? d)%Z then (win, NumberRefused)
      else (win, ForwardedToOperators)
  | None => (win, NumberRefused)
  end.
Proof.
  intros (H1 & H2 & H3 & H4) Hp.
  destruct (normalize_phone_nonempty t p Hp) as (c & t' & ->).
  unfold client_router. cbn [or_empty]. by rewrite H1, H2, H3, H4, Hp.
Qed.

(** X4. Provided the clock does not go back between its two readings: a
    text that is a phone number and none of the buttons is accepted
    exactly when the user has a window whose deadline has not passed at
    the first reading. The acceptance closes the window, and only then is
    the message passed on to the operators ([user_to_thread]); in every
    other case the number is refused with the warning, the windows stay
    as they are and the message is not passed on. *)
Theorem client_router_number (btn : buttons) (now1 now2 uid : Z)
    (t p : string) (win : gmap Z Z) :
  not_a_button btn t ->
  normalize_phone t = Some p ->
  (now1 <= now2)%Z ->
  client_router btn now1 now2 uid (Some t) win =
  match win !! uid with
  | Some d =>
      if (now1 <=? d)%Z
      then (delete uid win, NumberAccepted p (str_take text_limit t))
      else (win, NumberRefused)
  | None => (win, NumberRefused)
  end
  /\ (reaches_operators (snd (client_router btn now1 now2 uid (Some t) win))
      = true
      <-> exists d, win !! uid = Some d /\ (now1 <= d)%Z).
Proof.
  intros Hb Hp Hnow. rewrite (client_router_phone btn now1 now2 uid t p win Hb Hp).
  destruct (win !! uid) as [d|].
  - destruct (Z.leb_spec now1 d) as [Hle|Hgt].
    + split; [done|]. split; [by exists d|done].
    + destruct (Z.leb_spec now2 d); [lia|]. split; [done|].
      split; [done|]. intros (d' & [= <-] & Hd'). lia.
  - split; [done|]. split; [done|]. by intros (d' & Hd' & _).
Qed.

Lemma client_router_number_witness :
  client_router default_buttons 10 11 5 (Some "8 999 123-45-67"%string)
    {[ 5%Z := 20%Z ]}
  = match ({[ 5%Z := 20%Z ]} : gmap Z Z) !! 5%Z with
    | Some d =>
        if (10 <=? d)%Z
        then (delete 5%Z {[ 5%Z := 20%Z ]},
              NumberAccepted "+79991234567"
                (str_take text_limit "8 999 123-45-67"))
        else ({[ 5%Z := 20%Z ]}, NumberRefused)
    | None => ({[ 5%Z := 20%Z ]}, NumberRefused)
    end
  /\ (reaches_operators
        (snd (client_router default_buttons 10 11 5
                (Some "8 999 123-45-67"%string) {[ 5%Z := 20%Z ]}))
      = true
      <-> exists d, ({[ 5%Z := 20%Z ]} : gmap Z Z) !! 5%Z = Some d
                    /\ (10 <= d)%Z).
Proof.
  apply client_router_number.
  - vm_compute. by repeat split.
  - vm_compute. reflexivity.
  - lia.
Defined.

(** X5. One press of the submit button lets one number in: the number
    sent within five minutes of the press is accepted, and a number sent
    after it, at whatever time, is refused until the button is pressed
    again. *)
Theorem client_router_window_single_use (btn : buttons)
    (t0 t0' t1 t1' t2 t2' uid : Z) (press num num' p p' : string)
    (win : gmap Z Z) :
  String.eqb (strip press) (btn_ref btn) = false ->
  String.eqb (strip press) (btn_howto btn) = false ->
  String.eqb (strip press) (btn_support btn) = false ->
  strip press = btn_submit btn ->
  not_a_button btn num -> normalize_phone num = Some p ->
  not_a_button btn num' -> normalize_phone num' = Some p' ->
  (t1 <= t0 + minutes 5)%Z ->
  let r1 := client_router btn t0 t0' uid (Some press) win in
  let r2 := client_router btn t1 t1' uid (Some num) (fst r1) in
  let r3 := client_router btn t2 t2' uid (Some num') (fst r2) in
  snd r1 = WindowOpened (t0 + minutes 5)
  /\ snd r2 = NumberAccepted p (str_take text_limit num)
  /\ snd r3 = NumberRefused
  /\ fst r3 !! uid = None.
Proof.
  intros Hr Hh Hs Hsub Hb Hp Hb' Hp' Hin r1 r2 r3.
  assert (E1 : r1 = (<[uid := (t0 + minutes 5)%Z]> win,
                     WindowOpened (t0 + minutes 5))).
  { subst r1. unfold client_router. cbn [or_empty].
    by rewrite Hr, Hh, Hs, Hsub, String.eqb_refl. }
  assert (E2 : r2 = (delete uid (fst r1),
                     NumberAccepted p (str_take text_limit num))).
  { subst r2. rewrite (client_router_phone btn t1 t1' uid num p _ Hb Hp).
    rewrite E1. cbn [fst]. rewrite lookup_insert_eq.
    by rewrite (proj2 (Z.leb_le _ _) Hin). }
  assert (E3 : r3 = (fst r2, NumberRefused)).
  { subst r3. rewrite (client_router_phone btn t2 t2' uid num' p' _ Hb' Hp').
    rewrite E2. cbn [fst]. by rewrite lookup_delete_eq. }
  rewrite E3, E2, E1. cbn [fst snd]. by rewrite lookup_delete_eq.
Qed.

Lemma client_router_window_single_use_witness :
  snd (client_router default_buttons 0 0 5 (Some " Submit "%string) ∅)
  = WindowOpened (0 + minutes 5)
  /\ snd (client_router default_buttons 7 8 5 (Some "9991234567"%string)
           (fst (client_router default_buttons 0 0 5
                   (Some " Submit "%string) ∅)))
     = NumberAccepted "+79991234567" (str_take text_limit "9991234567")
  /\ snd (client_router default_buttons 9 9 5 (Some "89991234567"%string)
           (fst (client_router default_buttons 7 8 5
                   (Some "9991234567"%string)
                   (fst (client_router default_buttons 0 0 5
                           (Some " Submit "%string) ∅)))))
     = NumberRefused
  /\ fst (client_router default_buttons 9 9 5 (Some "89991234567"%string)
           (fst (client_router default_buttons 7 8 5
                   (Some "9991234567"%string)
                   (fst (client_router default_buttons 0 0 5
                           (Some " Submit "%string) ∅))))) !! 5%Z
     = None.
Proof.
  apply (client_router_window_single_use default_buttons 0 0 7 8 9 9 5
           " Submit " "9991234567" "89991234567"
           "+79991234567" "+79991234567" ∅);
    try (vm_compute; by repeat split).
Defined.

(** ** [maybe_send_actions_under_thread] *)

Lemma prompt_counter_step every cooldown_hours now tg_id st :
  prompt_counter
    (fst (maybe_send_actions_under_thread every cooldown_hours now tg_id st))
    tg_id
  = (prompt_counter st tg_id + 1)%Z.
Proof.
  unfold prompt_counter, maybe_send_actions_under_thread.
  destruct (default _ (st !! tg_id)) as [cnt last_ts]. cbn [fst].
  by rewrite lookup_insert_eq.
Qed.

Lemma prompt_when_divisible every cooldown_hours now tg_id st :
  ((prompt_counter st tg_id + 1) mod Z.max 1 every = 0)%Z ->
  snd (maybe_send_actions_under_thread every cooldown_hours now tg_id st)
  = true.
Proof.
  unfold prompt_counter, maybe_send_actions_under_thread.
  destruct (default _ (st !! tg_id)) as [cnt last_ts]. cbn [fst snd].
  intros ->. done.
Qed.

Lemma prompts_lookup every cooldown_hours tg_id times st k :
  k < length times ->
  ((prompt_counter st tg_id + 1 + Z.of_nat k) mod Z.max 1 every = 0)%Z ->
  prompts every cooldown_hours tg_id times st !! k = Some true.
Proof.
  revert st k. induction times as [|now times IH]; intros st k Hk Hmod;
    simpl in Hk; [lia|].
  destruct k as [|k]; cbn [prompts].
  - rewrite Z.add_0_r in Hmod. cbn. by rewrite prompt_when_divisible.
  - change ((?x :: ?l) !! S k) with (l !! k). apply IH; [lia|].
    rewrite prompt_counter_step.
    replace (prompt_counter st tg_id + 1 + 1 + Z.of_nat k)%Z
      with (prompt_counter st tg_id + 1 + Z.of_nat (S k))%Z by lia.
    done.
Qed.

(** X6. Whatever the times of the calls and the cooldown, among any
    [max(1, every)] consecutive forwarded messages of a user at least one
    is followed by the prompt with the actions. *)
Theorem prompts_at_least_once (every cooldown_hours tg_id : Z)
    (times : list Z) (st : gmap Z (Z * Z)) :
  length times = Z.to_nat (Z.max 1 every) ->
  exists k, prompts every cooldown_hours tg_id times st !! k = Some true.
Proof.
  intros Hlen.
  set (E := Z.max 1 every) in *.
  assert (HE : (1 <= E)%Z) by (subst E; lia).
  set (a := (prompt_counter st tg_id + 1)%Z).
  exists (Z.to_nat ((- a) mod E)).
  pose proof (Z.mod_pos_bound (- a) E ltac:(lia)) as Hb.
  apply prompts_lookup; [lia|].
  fold a. rewrite Z2Nat.id by lia.
  rewrite Z.add_mod_idemp_r by lia.
  replace (a + - a)%Z with 0%Z by lia. by apply Z.mod_0_l; lia.
Qed.

Lemma prompts_at_least_once_witness :
  exists k, prompts 3 24 7 [100; 200; 300]%Z {[ 7%Z := (1%Z, 50%Z) ]} !! k
            = Some true.
Proof. apply prompts_at_least_once. reflexivity. Defined.

(** ** [sla_monitor_loop] *)

Lemma sla_scan_spec rows notified i n lines :
  sla_scan rows notified i = (n, lines) ->
  i < 20 ->
  length lines + i <= 20
  /\ (fst <$> lines) = seq (S i) (length lines)
  /\ NoDup (reported lines)
  /\ (forall u, u ∈ reported lines -> u ∉ notified)
  /\ n = notified ∪ list_to_set (reported lines)
  /\ (snd <$> lines) `sublist_of` rows.
Proof.
  revert notified i n lines.
  induction rows as [|r rows IH]; intros notified i n lines Hs Hi;
    cbn [sla_scan] in Hs.
  - injection Hs as <- <-. simpl. repeat split; try lia; try constructor.
    + intros u Hu. by apply elem_of_nil in Hu.
    + by rewrite (right_id_L ∅ (∪)).
  - case_bool_decide as Hin.
    + destruct (IH _ _ _ _ Hs Hi) as (H1 & H2 & H3 & H4 & H5 & H6).
      repeat split; try done. by apply sublist_cons.
    + destruct (Nat.leb_spec 20 (S i)) as [Hfull|Hroom].
      * injection Hs as <- <-. simpl.
        repeat split; try lia.
        -- apply NoDup_singleton.
        -- intros u Hu. apply list_elem_of_singleton in Hu. by subst.
        -- by rewrite (right_id_L ∅ (∪)), (comm_L (∪)).
        -- apply sublist_skip, sublist_nil_l.
      * destruct (sla_scan rows ({[tk_tg_id r]} ∪ notified) (S i))
          as [n' lines'] eqn:Hrec.
        injection Hs as <- <-.
        destruct (IH _ _ _ _ Hrec ltac:(lia)) as (H1 & H2 & H3 & H4 & H5 & H6).
        unfold reported in *. rewrite !fmap_cons. cbn [length fst snd seq].
        repeat split.
        -- lia.
        -- by rewrite H2.
        -- apply NoDup_cons. split; [|done].
           intros Hu. apply (H4 _ Hu).
           apply elem_of_union_l. by apply elem_of_singleton.
        -- intros u [->|Hu]%elem_of_cons; [done|].
           intros Hn. apply (H4 _ Hu). by apply elem_of_union_r.
        -- rewrite H5. cbn [list_to_set foldr].
           by rewrite (comm_L (∪) _ notified), <- (assoc_L (∪)).
        -- by apply sublist_skip.
Qed.

(** X7. A report of the monitor has at most twenty lines, numbered from
    one on; its tickets are taken from the rows of the query in their
    order, no user occurs twice, none of them had been reported before,
    and afterwards exactly they are added to the reported ones. *)
Theorem sla_poll_report (rows : list ticket) (notified n : gset Z)
    (lines : list (nat * ticket)) :
  sla_poll rows false notified = (n, Report lines) ->
  length lines <= 20
  /\ (fst <$> lines) = seq 1 (length lines)
  /\ (snd <$> lines) `sublist_of` rows
  /\ NoDup (reported lines)
  /\ (forall u, u ∈ reported lines -> u ∉ notified)
  /\ n = notified ∪ list_to_set (reported lines).
Proof.
  unfold sla_poll. destruct rows as [|r rows]; [done|].
  destruct (sla_scan (r :: rows) notified 0) as [n' lines'] eqn:Hs.
  intros [= <- <-].
  destruct (sla_scan_spec _ _ _ _ _ Hs ltac:(lia)) as (H1 & H2 & H3 & H4 & H5 & H6).
  repeat split; try done. lia.
Qed.

Lemma sla_poll_report_witness :
  length [(1, Build_ticket 5 50 None 400)] <= 20
  /\ (fst <$> [(1, Build_ticket 5 50 None 400)])
     = seq 1 (length [(1, Build_ticket 5 50 None 400)])
  /\ (snd <$> [(1, Build_ticket 5 50 None 400)])
     `sublist_of` [Build_ticket 4 40 None 900; Build_ticket 5 50 None 400]
  /\ NoDup (reported [(1, Build_ticket 5 50 None 400)])
  /\ (forall u, u ∈ reported [(1, Build_ticket 5 50 None 400)] ->
                u ∉ ({[ 4%Z ]} : gset Z))
  /\ ({[ 5%Z; 4%Z ]} : gset Z)
     = {[ 4%Z ]} ∪ list_to_set (reported [(1, Build_ticket 5 50 None 400)]).
Proof.
  apply (sla_poll_report
           [Build_ticket 4 40 None 900; Build_ticket 5 50 None 400]).
  vm_compute. reflexivity.
Defined.

(** A round whose query returns rows forgets nobody, and what it reports
    is new. *)
Lemma sla_poll_grows rows raises notified :
  rows <> [] -> notified ⊆ fst (sla_poll rows raises notified).
Proof.
  intros Hne. unfold sla_poll. destruct rows as [|r rows]; [done|].
  destruct (sla_scan (r :: rows) notified 0) as [n lines] eqn:Hs. cbn [fst].
  destruct (sla_scan_spec _ _ _ _ _ Hs ltac:(lia)) as (_ & _ & _ & _ & -> & _).
  apply union_subseteq_l.
Qed.

Lemma sla_poll_new rows raises notified n lines :
  sla_poll rows raises notified = (n, Report lines) ->
  forall u, u ∈ reported lines -> u ∉ notified.
Proof.
  unfold sla_poll. destruct rows as [|r rows]; [done|].
  destruct (sla_scan (r :: rows) notified 0) as [n' lines'] eqn:Hs.
  destruct raises; [done|]. intros [= <- <-].
  by destruct (sla_scan_spec _ _ _ _ _ Hs ltac:(lia)) as (_ & _ & _ & ? & _).
Qed.

Lemma sla_rounds_keep (marked : gset Z) rounds notified :
  Forall (fun rd => fst rd <> []) rounds ->
  marked ⊆ notified ->
  forall lines, Report lines ∈ snd (sla_rounds rounds notified) ->
  forall u, u ∈ marked -> u ∉ reported lines.
Proof.
  revert notified.
  induction rounds as [|[rows raises] rounds IH]; intros notified Hall Hsub;
    cbn [sla_rounds].
  - intros lines Hin. by apply elem_of_nil in Hin.
  - apply Forall_cons in Hall as [Hrows Hall]. cbn [fst] in Hrows.
    pose proof (sla_poll_grows rows raises notified Hrows) as Hgrow.
    pose proof (sla_poll_new rows raises notified) as Hnew.
    destruct (sla_poll rows raises notified) as [n rep]. cbn [fst] in Hgrow.
    specialize (IH n Hall (transitivity Hsub Hgrow)).
    destruct (sla_rounds rounds n) as [n' reps]. cbn [snd] in *.
    intros lines [E|Hin]%elem_of_cons u Hu; [subst rep|by apply (IH lines)].
    intros Hrep. apply (Hnew n lines eq_refl u Hrep). by apply Hsub.
Qed.

(** X8. The users are marked as reported before the message is sent: when
    the send raises, the tickets of that round are marked all the same,
    and none of the reports of the rounds that follow, however many and
    whether their sends succeed or not, lists any of them (as long as
    the list of unanswered tickets does not become empty in between). *)
Theorem sla_failed_send_is_not_repeated (rows : list ticket)
    (later : list (list ticket * bool)) (notified n1 : gset Z)
    (lines1 : list (nat * ticket)) :
  rows <> [] ->
  sla_scan rows notified 0 = (n1, lines1) ->
  Forall (fun rd => fst rd <> []) later ->
  sla_poll rows true notified = (n1, ReportFailed)
  /\ forall lines, Report lines ∈ snd (sla_rounds later n1) ->
       forall u, u ∈ reported lines1 -> u ∉ reported lines.
Proof.
  intros Hne Hs Hlater. split.
  - unfold sla_poll. destruct rows; [done|]. by rewrite Hs.
  - destruct (sla_scan_spec _ _ _ _ _ Hs ltac:(lia)) as (_ & _ & _ & _ & Hn1 & _).
    assert (Hsub : list_to_set (reported lines1) ⊆ n1)
      by (rewrite Hn1; apply union_subseteq_r).
    intros lines Hin u Hu.
    apply (sla_rounds_keep _ later n1 Hlater Hsub lines Hin u).
    by apply elem_of_list_to_set.
Qed.

Lemma sla_failed_send_is_not_repeated_witness :
  sla_poll [Build_ticket 5 50 None 400] true ∅ = ({[ 5%Z ]}, ReportFailed)
  /\ forall lines,
       Report lines
       ∈ snd (sla_rounds
                [([Build_ticket 5 50 None 900; Build_ticket 6 60 None 400],
                  false);
                 ([Build_ticket 5 50 None 1500], true);
                 ([Build_ticket 5 50 None 2100; Build_ticket 8 80 None 400],
                  false)]
                {[ 5%Z ]}) ->
       forall u, u ∈ reported [(1, Build_ticket 5 50 None 400)] ->
                 u ∉ reported lines.
Proof.
  apply (sla_failed_send_is_not_repeated [Build_ticket 5 50 None 400]).
  - done.
  - vm_compute. reflexivity.
  - repeat constructor; done.
Defined.

(** X9. When all the unanswered tickets have been reported already, a
    round still sends a message: the header without any line. *)
Theorem sla_poll_header_only (rows : list ticket) (notified : gset Z) :
  rows <> [] ->
  (forall r, r ∈ rows -> tk_tg_id r ∈ notified) ->
  sla_poll rows false notified = (notified, Report []).
Proof.
  intros Hne Hall. unfold sla_poll. destruct rows as [|r0 rows0]; [done|].
  assert (Hscan : forall rs i, (forall r, r ∈ rs -> tk_tg_id r ∈ notified) ->
                    sla_scan rs notified i = (notified, [])).
  { induction rs as [|r rs IH]; intros i Hrs; simpl; [done|].
    rewrite bool_decide_eq_true_2 by (apply Hrs; by left).
    apply IH. intros r' Hr'. apply Hrs. by right. }
  by rewrite (Hscan _ 0 Hall).
Qed.

Lemma sla_poll_header_only_witness :
  sla_poll [Build_ticket 5 50 None 400] false {[ 5%Z ]}
  = ({[ 5%Z ]}, Report []).
Proof.
  apply sla_poll_header_only; [done|].
  intros r Hr. apply list_elem_of_singleton in Hr. subst r.
  apply elem_of_singleton. reflexivity.
Defined.

(** ** Cleaning the history and exporting it *)

Lemma export_cb_by_range range now table :
  export_cb (kind_of range) now table
  = match select_history (cutoff_of range now) table with
    | [] => NothingFound
    | r :: rows =>
        Exported ("broadcast-history-" +:+ kind_of range +:+ ".csv")
          (csv_header +:+ newline +:+ csv_lines (r :: rows))
    end.
Proof.
  unfold export_cb.
  destruct range;
    cbv beta iota zeta delta [kind_of cutoff_of String.eqb Ascii.eqb Bool.eqb];
    reflexivity.
Qed.

Lemma matches_after_cleanup t_clean cutoff table :
  (t_clean - days 360 <= cutoff)%Z ->
  List.filter (matches (Some cutoff)) (auto_cleanup_broadcasts t_clean table)
  = List.filter (matches (Some cutoff)) table.
Proof.
  intros Hc. unfold auto_cleanup_broadcasts.
  induction table as [|r table IH]; [done|]. cbn [List.filter].
  destruct (Z.ltb_spec (h_created_at r) (t_clean - days 360)) as [Hold|Hnew];
    cbn [negb].
  - rewrite IH. unfold matches at 2.
    destruct (Z.ltb_spec cutoff (h_created_at r)); [lia|done].
  - cbn [List.filter]. by rewrite IH.
Qed.

(** X10. Cleaning the history never changes what the export of the last
    seven or of the last thirty days shows afterwards: whether the stored
    procedure ran, the fallback statement ran or both failed, an export of
    such a range made at or after the time of the cleaning is the one that
    would have been made without it. *)
Theorem cleanup_keeps_recent_exports (call_raises delete_raises : bool)
    (t_clean t_export : Z) (table : list HistoryRow) (range : time_range) :
  range <> AllTime ->
  (t_clean <= t_export)%Z ->
  export_cb (kind_of range) t_export
    (fst (cleanup_broadcast_history call_raises delete_raises t_clean table))
  = export_cb (kind_of range) t_export table.
Proof.
  intros Hr Ht. rewrite !export_cb_by_range. unfold select_history.
  assert (Hf : List.filter (matches (cutoff_of range t_export))
                 (fst (cleanup_broadcast_history call_raises delete_raises
                         t_clean table))
               = List.filter (matches (cutoff_of range t_export)) table).
  { unfold cleanup_broadcast_history.
    destruct call_raises, delete_raises; cbn [fst]; try done;
      destruct range; try done; cbn [cutoff_of];
      apply matches_after_cleanup; unfold days; lia. }
  by rewrite Hf.
Qed.

Lemma cleanup_keeps_recent_exports_witness :
  export_cb (kind_of Last30) 1700000000
    (fst (cleanup_broadcast_history true false 1699990000
            [sample_row 1 1600000000 "old"; sample_row 2 1699999000 "new"]))
  = export_cb (kind_of Last30) 1700000000
      [sample_row 1 1600000000 "old"; sample_row 2 1699999000 "new"].
Proof. apply cleanup_keeps_recent_exports; [done|lia]. Defined.

(** ** Topic ids in the settings *)

Lemma str_forall_app f a b :
  str_forall f (a +:+ b) = str_forall f a && str_forall f b.
Proof.
  induction a as [|c a IH]; [done|].
  change (String c a +:+ b) with (String c (a +:+ b)). simpl.
  by rewrite IH, andb_assoc.
Qed.

Lemma decimal_value_app acc a b :
  decimal_value acc (a +:+ b) = decimal_value (decimal_value acc a) b.
Proof.
  revert acc. induction a as [|c a IH]; intros acc; [done|].
  change (String c a +:+ b) with (String c (a +:+ b)). simpl. apply IH.
Qed.

Lemma str_length_app a b :
  String.length (a +:+ b) = String.length a + String.length b.
Proof.
  induction a as [|c a IH]; [done|].
  change (String c a +:+ b) with (String c (a +:+ b)). simpl. by rewrite IH.
Qed.

Lemma pretty_N_char_decimal d :
  (d < 10)%N ->
  is_decimal (pretty_N_char d) = true
  /\ (Z.of_nat (nat_of_ascii (pretty_N_char d)) - 48 = Z.of_N d)%Z.
Proof.
  intros Hd.
  assert (d = 0 \/ d = 1 \/ d = 2 \/ d = 3 \/ d = 4 \/ d = 5 \/ d = 6
          \/ d = 7 \/ d = 8 \/ d = 9)%N as H by lia.
  repeat (destruct H as [->|H]; [by vm_compute|]). subst. by vm_compute.
Qed.

(** The digits that [pretty_N_go] puts in front of a text. *)
Lemma pretty_N_go_prefix x :
  exists pre,
    (forall s, pretty_N_go x s = pre +:+ s)
    /\ str_forall is_decimal pre = true
    /\ (forall acc, decimal_value acc pre
                    = acc * 10 ^ Z.of_nat (String.length pre) + Z.of_N x)%Z
    /\ ((0 < x)%N -> pre <> EmptyString).
Proof.
  induction (N.lt_wf_0 x) as [x _ IH].
  assert (x = 0 \/ 0 < x)%N as [->|Hpos] by lia.
  - exists EmptyString. repeat split; try done; intros; simpl; lia.
  - destruct (IH (x `div` 10)%N) as (pre & Hgo & Hdec & Hval & _).
    { by apply N.div_lt. }
    destruct (pretty_N_char_decimal (x `mod` 10)%N) as [Hc Hv].
    { by apply N.mod_lt. }
    exists (pre +:+ String (pretty_N_char (x `mod` 10)) EmptyString).
    split; [|split; [|split]].
    + intros s. rewrite pretty_N_go_step, Hgo by done.
      by rewrite str_app_assoc.
    + rewrite str_forall_app, Hdec. simpl. by rewrite Hc.
    + intros acc. rewrite decimal_value_app, Hval, str_length_app. simpl.
      rewrite Hv, Nat2Z.inj_add, Z.pow_add_r by lia.
      pose proof (N.div_mod x 10 ltac:(lia)) as Hdm.
      change (Z.of_nat 1) with 1%Z. rewrite Z.pow_1_r. lia.
    + intros _. by destruct pre.
Qed.

Lemma is_decimal_isdigit s :
  str_forall is_decimal s = true -> str_forall py_isdigit s = true.
Proof.
  induction s as [|c s IH]; simpl; [done|].
  intros [Hc Hs]%andb_true_iff. rewrite IH by done.
  unfold py_isdigit. unfold is_decimal in Hc. by rewrite Hc.
Qed.

Lemma py_int_pretty (n : Z) :
  (0 <= n)%Z ->
  String.length (pretty n) <= int_max_str_digits ->
  str_isdigit (pretty n) = true /\ py_int (pretty n) = Some n.
Proof.
  intros Hn Hlen. apply Nat.leb_le in Hlen.
  destruct n as [|p|p]; [by vm_compute| |lia].
  revert Hlen.
  change (pretty (Z.pos p)) with (pretty_N_go (N.pos p) EmptyString).
  destruct (pretty_N_go_prefix (N.pos p)) as (pre & Hgo & Hdec & Hval & Hne).
  rewrite Hgo.
  assert (E : pre +:+ EmptyString = pre).
  { clear. induction pre as [|c pre IH]; [done|].
    change (String c pre +:+ EmptyString) with (String c (pre +:+ EmptyString)).
    by rewrite IH. }
  rewrite E. intros Hlen. split.
  - unfold str_isdigit. destruct pre as [|c pre]; [exfalso; apply Hne; [lia|done]|].
    by apply is_decimal_isdigit.
  - unfold py_int. rewrite Hdec, Hlen, Hval. by f_equal.
Qed.

(** X11. A topic id that is written to the settings as [str(tid)] is read
    back by [_get_topic_id] as the same number, whatever the table held
    before: for every id that is not negative and that [str] can print
    (one of at most 4300 digits). *)
Theorem topic_id_round_trip (db : gmap string (option string))
    (key : string) (tid : Z) :
  (0 <= tid)%Z ->
  String.length (pretty tid) <= int_max_str_digits ->
  _get_topic_id (set_setting key (pretty tid) db) key = Some tid.
Proof.
  intros Ht Hlen. destruct (py_int_pretty tid Ht Hlen) as [Hd Hi].
  unfold _get_topic_id, set_setting. rewrite lookup_insert_eq.
  cbn [py_str]. by rewrite Hd, Hi.
Qed.

Lemma topic_id_round_trip_witness :
  _get_topic_id (set_setting "broadcast_topic" (pretty 4017%Z) ∅)
    "broadcast_topic" = Some 4017%Z.
Proof.
  apply topic_id_round_trip; [lia|].
  apply Nat.leb_le. vm_compute. reflexivity.
Defined.

Lemma decimal_value_nonneg acc s :
  (0 <= acc)%Z -> str_forall is_decimal s = true ->
  (0 <= decimal_value acc s)%Z.
Proof.
  revert acc. induction s as [|c s IH]; intros acc Ha; simpl; [done|].
  intros [Hc Hs]%andb_true_iff. apply IH; [|done].
  unfold is_decimal in Hc. apply andb_true_iff in Hc as [Hlo _].
  apply Nat.leb_le in Hlo. lia.
Qed.

(** X12. [_get_topic_id] answers 0 when the key is missing, when the value
    is [NULL] and when the value is not made of digit characters, and it
    never answers a negative number. The test with [isdigit] does not make
    [int] safe: the call raises exactly when the value is made of digit
    characters and one of them is not a decimal digit (a superscript two,
    for instance) or there are more of them than [int] accepts. *)
Theorem topic_id_edges (db : gmap string (option string)) (key : string) :
  (db !! key = None \/ db !! key = Some None -> _get_topic_id db key = Some 0%Z)
  /\ (forall s, db !! key = Some (Some s) -> str_isdigit s = false ->
                _get_topic_id db key = Some 0%Z)
  /\ (forall n, _get_topic_id db key = Some n -> (0 <= n)%Z)
  /\ (_get_topic_id db key = None <->
      exists s, db !! key = Some (Some s)
                /\ str_isdigit s = true
                /\ (str_forall is_decimal s = false
                    \/ int_max_str_digits < String.length s)).
Proof.
  unfold _get_topic_id. split; [|split; [|split]].
  - by intros [-> | ->].
  - intros s -> Hs. cbn [py_str]. by rewrite Hs.
  - intros n. destruct (db !! key) as [[s|]|]; cbn [py_str].
    + destruct (str_isdigit s); [|by intros [= <-]].
      unfold py_int. destruct (str_forall is_decimal s) eqn:Hd; [|done].
      destruct (_ <=? _)%nat; [|done].
      intros [= <-]. by apply decimal_value_nonneg.
    + by intros [= <-].
    + by intros [= <-].
  - split.
    + destruct (db !! key) as [[s|]|]; cbn [py_str]; try done.
      destruct (str_isdigit s) eqn:Hs; [|done].
      unfold py_int. destruct (str_forall is_decimal s) eqn:Hd.
      * destruct (Nat.leb_spec (String.length s) int_max_str_digits); [done|].
        intros _. exists s. auto.
      * intros _. exists s. auto.
    + intros (s & -> & Hs & Hd). cbn [py_str]. rewrite Hs.
      unfold py_int. destruct Hd as [-> | Hlong]; [done|].
      apply Nat.leb_gt in Hlong. rewrite Hlong. by rewrite andb_false_r.
Qed.

Lemma topic_id_edges_witness :
  _get_topic_id {[ "panel_topic"%string := Some (str1 (chr 178)) ]}
    "panel_topic" = None
  /\ _get_topic_id {[ "panel_topic"%string := Some "12a"%string ]}
       "panel_topic" = Some 0%Z.
Proof.
  split.
  - apply (topic_id_edges
             {[ "panel_topic"%string := Some (str1 (chr 178)) ]} "panel_topic").
    exists (str1 (chr 178)). vm_compute. auto.
  - apply (proj1 (proj2 (topic_id_edges
             {[ "panel_topic"%string := Some "12a"%string ]} "panel_topic"))
             "12a"); by vm_compute.
Defined.

(** * Properties of the PRO dialogue and of the registry *)

Lemma process_broadcast_waiting m p d :
  lookup_state p (from_user_id m) = Some d ->
  d_step d = Some "wait_msg"%string ->
  process_broadcast m p
  = (setitem (from_user_id m) (confirm_dict m) p, PreviewReady).
Proof.
  unfold lookup_state, process_broadcast, not_st.
  destruct (get p (from_user_id m)) as [l|]; simpl; [|done].
  intros [= <-] Hstep. unfold dict_truthy. by rewrite Hstep.
Qed.

Lemma pro_confirm_cb_no_msg who p d :
  lookup_state p who = Some d ->
  dict_truthy d = true ->
  d_msg d = None ->
  pro_confirm_cb "pro:confirm_send" who p = (p, ConfirmKeyError).
Proof.
  unfold lookup_state. intros Hd Ht Hm.
  change (pro_confirm_cb "pro:confirm_send" who p)
    with (let st := get p who in
          if not_st p st then (p, ConfirmNoActive)
          else match st with
               | None => (p, ConfirmNoActive)
               | Some l => match d_msg (deref p l) with
                           | Some m => (p, ConfirmSpawned who m)
                           | None => (p, ConfirmKeyError)
                           end
               end).
  unfold not_st. destruct (get p who) as [l|]; simpl in *; [|done].
  injection Hd as <-. by rewrite Ht, Hm.
Qed.

(** X13. The start sequence of the PRO broadcast, from any registry: after
    [pro:new] a confirmation that comes before the message raises
    [KeyError]; the message is answered with the preview and stored; a
    further message of the operator is ignored, so that the first one
    stays; the confirmation then schedules a worker for that message. *)
Theorem pro_start_sequence (p : pro_states) (m m' : Message) :
  from_user_id m' = from_user_id m ->
  let who := from_user_id m in
  let p1 := fst (pro_callback "new" who p) in
  let p2 := fst (process_broadcast m p1) in
  pro_confirm_cb "pro:confirm_send" who p1 = (p1, ConfirmKeyError)
  /\ snd (process_broadcast m p1) = PreviewReady
  /\ lookup_state p2 who = Some (confirm_dict m)
  /\ process_broadcast m' p2 = (p2, Silent)
  /\ pro_confirm_cb "pro:confirm_send" who p2 = (p2, ConfirmSpawned who m).
Proof.
  intros Hfrom who p1 p2.
  assert (E1 : p1 = setitem who wait_msg_dict p) by done.
  assert (H1 : lookup_state p1 who = Some wait_msg_dict)
    by (rewrite E1; apply lookup_state_setitem).
  assert (E2 : process_broadcast m p1
               = (setitem who (confirm_dict m) p1, PreviewReady))
    by (by apply (process_broadcast_waiting m p1 wait_msg_dict)).
  assert (H2 : lookup_state p2 who = Some (confirm_dict m)).
  { subst p2. rewrite E2. apply lookup_state_setitem. }
  split; [by apply (pro_confirm_cb_no_msg who p1 wait_msg_dict)|].
  split; [by rewrite E2|]. split; [done|]. split.
  - apply (process_broadcast_in_flight m' p2 (confirm_dict m)); [|done].
    by rewrite Hfrom.
  - by apply (pro_confirm_cb_in_flight who p2 (confirm_dict m)).
Qed.

Lemma pro_start_sequence_witness :
  let who := from_user_id (text_message 7 "sale") in
  let p1 := fst (pro_callback "new" who (confirmed 8 (text_message 8 "hi"))) in
  let p2 := fst (process_broadcast (text_message 7 "sale") p1) in
  pro_confirm_cb "pro:confirm_send" who p1 = (p1, ConfirmKeyError)
  /\ snd (process_broadcast (text_message 7 "sale") p1) = PreviewReady
  /\ lookup_state p2 who = Some (confirm_dict (text_message 7 "sale"))
  /\ process_broadcast (text_message 7 "sorry, this one") p2 = (p2, Silent)
  /\ pro_confirm_cb "pro:confirm_send" who p2
     = (p2, ConfirmSpawned who (text_message 7 "sale")).
Proof.
  apply (pro_start_sequence (confirmed 8 (text_message 8 "hi"))
           (text_message 7 "sale") (text_message 7 "sorry, this one")).
  reflexivity.
Defined.

(** ** The [stopped] flag *)

Lemma stopped_update_obj l' f p l d :
  (forall d0, flag (d_stopped d0) = true -> flag (d_stopped (f d0)) = true) ->
  objects p !! l = Some d -> flag (d_stopped d) = true ->
  exists d', objects (update_obj l' f p) !! l = Some d'
             /\ flag (d_stopped d') = true.
Proof.
  intros Hf Hl Hd. unfold update_obj; simpl.
  destruct (decide (l' = l)) as [->|Hne].
  - rewrite lookup_insert_eq. eexists. split; [done|].
    apply Hf. unfold deref. by rewrite Hl.
  - rewrite lookup_insert_ne by done. eauto.
Qed.

Lemma stopped_apply_handler p h l d :
  objects p !! l = Some d -> flag (d_stopped d) = true ->
  exists d', objects (apply_handler p h) !! l = Some d'
             /\ flag (d_stopped d') = true.
Proof.
  intros Hl Hd. destruct h as [act who|m|data who]; simpl.
  - unfold pro_callback, manage_broadcast.
    destruct (String.eqb act "new");
      [exists d; split; [by apply objects_setitem|done]|].
    destruct (String.eqb act "templates"); [by eauto|].
    destruct (String.eqb act "history"); [by eauto|].
    destruct (_ || _); [|by eauto].
    destruct (not_st p (get p who)); [by eauto|].
    destruct (get p who) as [l'|]; [|by eauto].
    destruct (String.eqb act "pause");
      [by apply (stopped_update_obj l' _ p l d)|].
    destruct (String.eqb act "resume");
      [by apply (stopped_update_obj l' _ p l d)|].
    destruct (String.eqb act "stop"); [|by eauto].
    by apply (stopped_update_obj l' _ p l d).
  - unfold process_broadcast.
    destruct (not_st _ _); [by eauto|].
    destruct (get p (from_user_id m)) as [l'|]; [|by eauto].
    destruct (d_step _) as [st|]; [|by eauto].
    destruct (String.eqb st "wait_msg"); [|by eauto].
    exists d. split; [by apply objects_setitem|done].
  - unfold pro_confirm_cb.
    destruct (String.eqb data "pro:cancel"); [by eauto|].
    destruct (not_st _ _); [by eauto|].
    destruct (get p who) as [l'|]; [|by eauto].
    destruct (d_msg _); by eauto.
Qed.

(** X14. No handler of the module takes a stop back: a dictionary whose
    [stopped] entry is true keeps it true through every sequence of
    handler calls ([pro:resume] clears [paused] only, and [pro:new] binds a
    new dictionary instead of clearing the old one). *)
Theorem stop_is_never_taken_back (hs : list handler_call) (p : pro_states)
    (l : loc) (d : st_dict) :
  objects p !! l = Some d -> flag (d_stopped d) = true ->
  exists d', objects (foldl apply_handler p hs) !! l = Some d'
             /\ flag (d_stopped d') = true.
Proof.
  revert p d. induction hs as [|h hs IH]; intros p d Hl Hd; simpl; [by eauto|].
  destruct (stopped_apply_handler p h l d Hl Hd) as (d1 & Hl1 & Hd1).
  by apply (IH _ d1).
Qed.

Lemma stop_is_never_taken_back_witness :
  exists d',
    objects (foldl apply_handler
               (fst (manage_broadcast "stop" 7
                       (confirmed 7 (text_message 7 "hi"))))
               [Callback "resume" 7; Callback "new" 7;
                Incoming (text_message 7 "again"); Callback "pause" 7])
      !! 0 = Some d'
    /\ flag (d_stopped d') = true.
Proof.
  apply (stop_is_never_taken_back _ _ 0
           (set_stopped true (confirm_dict (text_message 7 "hi")))).
  - vm_compute. reflexivity.
  - reflexivity.
Defined.

(** ** Operators do not share dictionaries *)

Lemma separate_empty : separate empty_states.
Proof.
  split; [intros k l H|intros k k' l H _]; simpl in H;
    by rewrite lookup_empty in H.
Qed.

Lemma separate_setitem k d p : separate p -> separate (setitem k d p).
Proof.
  intros [Hdom Hinj].
  assert (Hfresh : forall k0, bindings p !! k0 <> Some (fresh (dom (objects p)))).
  { intros k0 Hk0. destruct (Hdom _ _ Hk0) as [d0 Hd0].
    apply (is_fresh (dom (objects p))). apply elem_of_dom. eauto. }
  split; unfold setitem; simpl.
  - intros k0 l. destruct (decide (k = k0)) as [->|Hne].
    + rewrite lookup_insert_eq. intros [= <-]. rewrite lookup_insert_eq. eauto.
    + rewrite lookup_insert_ne by done. intros Hk0.
      destruct (Hdom _ _ Hk0) as [d0 Hd0].
      rewrite lookup_insert_ne; [eauto|].
      intros <-. by apply (Hfresh k0).
  - intros k1 k2 l.
    destruct (decide (k = k1)) as [<-|Hne1], (decide (k = k2)) as [<-|Hne2];
      try done.
    + rewrite lookup_insert_eq, lookup_insert_ne by done.
      intros [= <-] H2. by destruct (Hfresh k2).
    + rewrite lookup_insert_ne, lookup_insert_eq by done.
      intros H1 [= <-]. by destruct (Hfresh k1).
    + rewrite !lookup_insert_ne by done. apply Hinj.
Qed.

Lemma separate_update_obj l f p : separate p -> separate (update_obj l f p).
Proof.
  intros [Hdom Hinj]. split; unfold update_obj; simpl; [|done].
  intros k l0 Hk. destruct (decide (l = l0)) as [->|Hne].
  - rewrite lookup_insert_eq. eauto.
  - rewrite lookup_insert_ne by done. by apply (Hdom k).
Qed.

Lemma separate_pop k p : separate p -> separate (pop k p).
Proof.
  intros [Hdom Hinj]. split; unfold pop; simpl.
  - intros k0 l [_ Hk0]%lookup_delete_Some. by apply (Hdom k0).
  - intros k1 k2 l [_ H1]%lookup_delete_Some [_ H2]%lookup_delete_Some.
    by apply (Hinj k1 k2 l).
Qed.

Lemma separate_apply_handler p h : separate p -> separate (apply_handler p h).
Proof.
  intros Hp. destruct h as [act who|m|data who]; simpl.
  - unfold pro_callback, manage_broadcast.
    destruct (String.eqb act "new"); [by apply separate_setitem|].
    destruct (String.eqb act "templates"); [done|].
    destruct (String.eqb act "history"); [done|].
    destruct (_ || _); [|done].
    destruct (not_st p (get p who)); [done|].
    destruct (get p who) as [l|]; [|done].
    destruct (String.eqb act "pause"); [by apply separate_update_obj|].
    destruct (String.eqb act "resume"); [by apply separate_update_obj|].
    destruct (String.eqb act "stop"); [by apply separate_update_obj|done].
  - unfold process_broadcast.
    destruct (not_st _ _); [done|].
    destruct (get p (from_user_id m)) as [l|]; [|done].
    destruct (d_step _) as [st|]; [|done].
    destruct (String.eqb st "wait_msg"); [by apply separate_setitem|done].
  - unfold pro_confirm_cb.
    destruct (String.eqb data "pro:cancel"); [by apply separate_pop|].
    destruct (not_st _ _); [done|].
    destruct (get p who) as [l|]; [|done].
    by destruct (d_msg _).
Qed.

Lemma reachable_separate p : reachable p -> separate p.
Proof.
  induction 1 as [|p h _ IH]; [apply separate_empty|].
  by apply separate_apply_handler.
Qed.

Lemma lookup_state_setitem_ne k d p b :
  separate p -> k <> b -> lookup_state (setitem k d p) b = lookup_state p b.
Proof.
  intros [Hdom _] Hne. unfold lookup_state. rewrite get_setitem_ne by done.
  unfold get. destruct (bindings p !! b) as [l|] eqn:Hb; simpl; [|done].
  destruct (Hdom _ _ Hb) as [d0 Hd0]. f_equal. unfold deref.
  by rewrite (objects_setitem k d p l d0 Hd0), Hd0.
Qed.

Lemma lookup_state_update_obj_ne a l f p b :
  separate p -> get p a = Some l -> a <> b ->
  lookup_state (update_obj l f p) b = lookup_state p b.
Proof.
  intros [_ Hinj] Ha Hne. unfold lookup_state, get in *.
  change (bindings (update_obj l f p)) with (bindings p).
  destruct (bindings p !! b) as [l'|] eqn:Hb; simpl; [|done].
  f_equal. unfold deref, update_obj; simpl.
  rewrite lookup_insert_ne; [done|].
  intros ->. apply Hne. by apply (Hinj a b l').
Qed.

Lemma lookup_state_pop_ne k p b :
  k <> b -> lookup_state (pop k p) b = lookup_state p b.
Proof.
  intros Hne. unfold lookup_state, get, pop; simpl.
  by rewrite lookup_delete_ne.
Qed.

(** X15. In a registry that the handlers have produced no two operators
    are bound to the same dictionary, and a handler call for one operator
    leaves what every other operator has in the registry as it is: their
    step, their message and their flags. *)
Theorem handlers_keep_operators_apart (p : pro_states) (h : handler_call)
    (b : Z) :
  reachable p ->
  operator_of h <> b ->
  separate (apply_handler p h)
  /\ lookup_state (apply_handler p h) b = lookup_state p b.
Proof.
  intros Hr Hne. pose proof (reachable_separate p Hr) as Hp.
  split; [by apply separate_apply_handler|].
  destruct h as [act who|m|data who]; simpl in *.
  - unfold pro_callback, manage_broadcast.
    destruct (String.eqb act "new"); [by apply lookup_state_setitem_ne|].
    destruct (String.eqb act "templates"); [done|].
    destruct (String.eqb act "history"); [done|].
    destruct (_ || _); [|done].
    destruct (not_st p (get p who)); [done|].
    destruct (get p who) as [l|] eqn:Hget; [|done].
    destruct (String.eqb act "pause");
      [by apply (lookup_state_update_obj_ne who)|].
    destruct (String.eqb act "resume");
      [by apply (lookup_state_update_obj_ne who)|].
    destruct (String.eqb act "stop"); [|done].
    by apply (lookup_state_update_obj_ne who).
  - unfold process_broadcast.
    destruct (not_st _ _); [done|].
    destruct (get p (from_user_id m)) as [l|]; [|done].
    destruct (d_step _) as [st|]; [|done].
    destruct (String.eqb st "wait_msg"); [|done].
    by apply lookup_state_setitem_ne.
  - unfold pro_confirm_cb.
    destruct (String.eqb data "pro:cancel"); [by apply lookup_state_pop_ne|].
    destruct (not_st _ _); [done|].
    destruct (get p who) as [l|]; [|done].
    by destruct (d_msg _).
Qed.

Lemma handlers_keep_operators_apart_witness :
  separate (apply_handler (apply_handler (apply_handler empty_states
              (Callback "new" 8)) (Incoming (text_message 8 "hi")))
              (Callback "stop" 7))
  /\ lookup_state (apply_handler (apply_handler (apply_handler empty_states
              (Callback "new" 8)) (Incoming (text_message 8 "hi")))
              (Callback "stop" 7)) 8
     = lookup_state (apply_handler (apply_handler empty_states
              (Callback "new" 8)) (Incoming (text_message 8 "hi"))) 8.
Proof.
  apply handlers_keep_operators_apart.
  - apply reachable_step, reachable_step, reachable_empty.
  - simpl. lia.
Defined.

(** ** The worker and the registry *)

Lemma handled_add w t n m p :
  handled w t (n + m) p = handled w (t + n) m (handled w t n p).
Proof.
  revert t p. induction n as [|n IH]; intros t p; simpl.
  - by rewrite Nat.add_0_r.
  - rewrite IH. by replace (S t + n) with (t + S n) by lia.
Qed.

Section Registry.
Context (w : world) (polls : nat) (admin_id : Z) (msg : Message).
Context (tg_ids : list Z).

Lemma served_refl s : served w s s.
Proof. exists 0. split; [lia|done]. Qed.

Lemma served_trans s1 s2 s3 :
  served w s1 s2 -> served w s2 s3 -> served w s1 s3.
Proof.
  intros (n1 & Ht1 & Hs1) (n2 & Ht2 & Hs2). exists (n1 + n2).
  split; [lia|]. by rewrite handled_add, <- Hs1, <- Ht1.
Qed.

Lemma served_same s1 s2 s3 :
  served w s1 s2 -> tick s3 = tick s2 -> states s3 = states s2 ->
  served w s1 s3.
Proof. intros (n & Ht & Hs) Et Es. exists n. by rewrite Et, Es. Qed.

Lemma served_suspend s : served w s (suspend w s).
Proof. exists 1. split; [simpl; lia|done]. Qed.

Lemma served_wait_paused n l s :
  served w s (flow_state (wait_paused w n l s)).
Proof.
  revert s. induction n as [|n IH]; intros s; simpl.
  - destruct (flag _); apply served_refl.
  - destruct (flag _); [|apply served_refl].
    apply (served_trans _ _ _ (served_suspend s)), IH.
Qed.

Lemma served_attempt uid s : served w s (attempt w msg uid s).
Proof.
  apply (served_same _ _ _ (served_suspend s)); unfold attempt;
    destruct (String.eqb _ _);
    [destruct (send_raises w uid)|destruct (copy_raises w uid)
    |destruct (send_raises w uid)|destruct (copy_raises w uid)]; done.
Qed.

Lemma served_sleep_for d s : served w s (sleep_for w d s).
Proof. by apply (served_same _ _ _ (served_suspend s)). Qed.

Lemma served_report total s : served w s (flow_state (report w total s)).
Proof.
  unfold report. destruct (edit_raises _ _); simpl;
    by apply (served_same _ _ _ (served_suspend s)).
Qed.

Lemma served_iteration uid s :
  served w s (flow_state (iteration w polls admin_id msg tg_ids uid s)).
Proof.
  unfold iteration.
  destruct (not_st _ _); [apply served_refl|].
  destruct (get (states s) admin_id) as [l|]; [|apply served_refl].
  destruct (flag (d_stopped _)); [apply served_refl|].
  pose proof (served_wait_paused polls l s) as Hw.
  destruct (wait_paused w polls l s) as [s1|s1|s1|s1]; simpl in Hw; try done.
  set (s3 := sleep_for w pro_delay (attempt w msg uid s1)).
  assert (H3 : served w s s3).
  { apply (served_trans _ _ _ Hw).
    apply (served_trans _ _ _ (served_attempt uid s1)), served_sleep_for. }
  destruct (progress_due _ _ _); [|done].
  apply (served_trans _ _ _ H3), served_report.
Qed.

Lemma served_for_loop rest s :
  served w s (flow_state (for_loop w polls admin_id msg tg_ids rest s)).
Proof.
  revert s. induction rest as [|uid rest IH]; intros s; simpl;
    [apply served_refl|].
  pose proof (served_iteration uid s) as Hi.
  destruct (iteration w polls admin_id msg tg_ids uid s) as [s1|s1|s1|s1];
    simpl in Hi; try done.
  apply (served_trans _ _ _ Hi), IH.
Qed.

Lemma served_prelude s : served w s (prelude w s).
Proof.
  unfold prelude.
  apply (served_same _ (suspend w (suspend w (suspend w (reset_counters s)))));
    [|done|done].
  apply (served_trans _ (reset_counters s));
    [by apply (served_same _ s); [apply served_refl|..]|].
  apply (served_trans _ _ _ (served_suspend _)).
  apply (served_trans _ _ _ (served_suspend _)), served_suspend.
Qed.

End Registry.

(** X16. The worker does not write to the registry before its end: at
    whatever point a run stands or ends, the registry is the one the run
    started with after the handler calls that arrived meanwhile, and a
    run that returns has removed the operator's key from it and done
    nothing else. A run that is ended by an exception, or that waits in a
    pause, has removed nothing. *)
Theorem worker_leaves_registry_to_handlers (w : world) (polls : nat)
    (admin_id : Z) (msg : Message) (s0 : wstate) :
  exists n,
    tick (result_state (run_broadcast w polls admin_id msg s0)) = tick s0 + n
    /\ states (result_state (run_broadcast w polls admin_id msg s0))
       = match run_broadcast w polls admin_id msg s0 with
         | Returned _ => pop admin_id (handled w (tick s0) n (states s0))
         | _ => handled w (tick s0) n (states s0)
         end.
Proof.
  unfold run_broadcast.
  set (tg_ids := fetch_unbanned (users w)).
  assert (Hl : served w s0
                 (flow_state (for_loop w polls admin_id msg tg_ids tg_ids
                                (prelude w s0)))).
  { apply (served_trans _ _ _ _ (served_prelude w s0)), served_for_loop. }
  assert (He : forall s1, served w s0 s1 ->
            exists n,
              tick (epilogue w admin_id msg (length tg_ids) s1) = tick s0 + n
              /\ states (epilogue w admin_id msg (length tg_ids) s1)
                 = pop admin_id (handled w (tick s0) n (states s0))).
  { intros s1 H1.
    assert (H2 : served w s0 (suspend w (suspend w s1))).
    { apply (served_trans _ _ _ _ H1).
      apply (served_trans _ _ _ _ (served_suspend w s1)), served_suspend. }
    destruct H2 as (n & Ht & Hs). exists n. split; [exact Ht|].
    by rewrite <- Hs. }
  destruct (for_loop w polls admin_id msg tg_ids tg_ids (prelude w s0))
    as [s1|s1|s1|s1]; simpl in *; auto.
Qed.

(** ** The last progress render *)

Lemma last_render w polls admin_id msg tg_ids uid s s' :
  last tg_ids = Some uid ->
  iteration w polls admin_id msg tg_ids uid s = Continue s' ->
  last (edits s') = Some (sent s', length tg_ids, failed s').
Proof.
  intros Hlast. unfold iteration.
  destruct (not_st _ _); [done|].
  destruct (get (states s) admin_id) as [l|]; [|done].
  destruct (flag (d_stopped _)); [done|].
  destruct (wait_paused w polls l s) as [s1|s1|s1|s1]; try done.
  set (s3 := sleep_for w pro_delay (attempt w msg uid s1)).
  unfold progress_due. rewrite (bool_decide_eq_true_2 _ Hlast), orb_true_r.
  unfold report. destruct (edit_raises _ _); [done|].
  intros [= <-]. simpl. by rewrite last_snoc.
Qed.

(** X17. When the worker returns after it has attempted every one of the
    recipients (there being at least one), the last progress render of the
    control message shows the numbers of the final message: the render
    after the last recipient is made whatever the value of [sent]. *)
Theorem last_render_is_final_tally (w : world) (polls : nat) (admin_id : Z)
    (msg : Message) (s0 s' : wstate) :
  run_broadcast w polls admin_id msg s0 = Returned s' ->
  fetch_unbanned (users w) <> [] ->
  length (calls s') = length (calls s0) + length (fetch_unbanned (users w)) ->
  last (edits s')
  = Some (sent s', length (fetch_unbanned (users w)), failed s')
  /\ last (notices s')
     = Some (Finished (sent s') (length (fetch_unbanned (users w)))
               (failed s')).
Proof.
  unfold run_broadcast.
  set (tg_ids := fetch_unbanned (users w)).
  intros Hrun Hne Hlen.
  destruct (for_loop_spec w polls admin_id msg tg_ids tg_ids (prelude w s0))
    as (done & todo & Hsplit & Hext & Hend).
  destruct (for_loop w polls admin_id msg tg_ids tg_ids (prelude w s0))
    as [s1|s1|s1|s1] eqn:Hloop; try done; injection Hrun as <-.
  - clear Hext Hend Hsplit done todo Hlen.
    destruct (exists_last Hne) as (pre & uid & Hpre).
    assert (Hlast : last tg_ids = Some uid) by (rewrite Hpre; apply last_snoc).
    rewrite Hpre in Hloop at 2. rewrite for_loop_app in Hloop.
    destruct (for_loop w polls admin_id msg tg_ids pre (prelude w s0))
      as [s2| | |]; try done.
    simpl in Hloop.
    destruct (iteration w polls admin_id msg tg_ids uid s2) as [s3| | |] eqn:Hit;
      try done.
    injection Hloop as <-.
    pose proof (last_render _ _ _ _ _ _ _ _ Hlast Hit) as Hr.
    split; [exact Hr|]. simpl. by rewrite last_snoc.
  - exfalso. destruct Hend as [Htodo _].
    destruct Hext as (Hcalls & _). simpl in Hcalls, Hlen.
    rewrite Hcalls in Hlen. rewrite length_app, length_fmap in Hlen.
    assert (length tg_ids = length done + length todo)
      by (by rewrite Hsplit, length_app).
    destruct todo; [done|]. simpl in *.
    change (calls (prelude w s0)) with (calls s0) in Hlen. lia.
Qed.

Lemma last_render_is_final_tally_witness :
  last (edits (result_state
          (run_broadcast (quiet three_users 20) 0 7 (text_message 7 "hi")
             (initial (confirmed 7 (text_message 7 "hi")) []))))
  = Some (2, 2, 0)
  /\ last (notices (result_state
          (run_broadcast (quiet three_users 20) 0 7 (text_message 7 "hi")
             (initial (confirmed 7 (text_message 7 "hi")) []))))
     = Some (Finished 2 2 0).
Proof.
  apply (last_render_is_final_tally (quiet three_users 20) 0 7
           (text_message 7 "hi")
           (initial (confirmed 7 (text_message 7 "hi")) [])
           (result_state
              (run_broadcast (quiet three_users 20) 0 7 (text_message 7 "hi")
                 (initial (confirmed 7 (text_message 7 "hi")) [])))).
  - vm_compute. reflexivity.
  - vm_compute. discriminate.
  - vm_compute. reflexivity.
Defined.

(** * Properties of the dialogue of the simple broadcast *)

Lemma admin_broadcast_flow_plain w btid thread uid m m0 bs :
  other_topic btid thread = false ->
  bs !! uid = Some (Confirm m0) ->
  plain uid m ->
  admin_broadcast_flow w btid thread m bs
  = (<[uid := Confirm m]> bs, TextUpdated).
Proof.
  intros Htopic Hst (<- & Hc & Ho). unfold admin_broadcast_flow.
  by rewrite Hst, Htopic, Hc, Ho.
Qed.

Lemma dialogue_plain w btid thread uid ms m0 bs :
  other_topic btid thread = false ->
  bs !! uid = Some (Confirm m0) ->
  Forall (plain uid) ms ->
  dialogue w btid thread ms bs
  = <[uid := Confirm (default m0 (last ms))]> bs.
Proof.
  intros Htopic. revert m0 bs.
  induction ms as [|m ms IH]; intros m0 bs Hst Hall.
  - simpl. by rewrite insert_id.
  - apply Forall_cons in Hall as [Hm Hms]. unfold dialogue. cbn [foldl].
    rewrite (admin_broadcast_flow_plain w btid thread uid m m0 bs) by done.
    cbn [fst]. fold (dialogue w btid thread ms (<[uid := Confirm m]> bs)).
    rewrite (IH m) by (by rewrite ?lookup_insert_eq).
    rewrite insert_insert_eq, last_cons. by destruct (last ms).
Qed.

(** X18. In the simple broadcast the message that goes out is the last
    one the operator wrote before the confirmation. After an accepted
    [/broadcast] the first message is stored whatever it says (a first
    message that reads [cancel] or [ok] is stored, not obeyed), every
    further message that is not one of the two commands takes its place,
    and [ok] then runs the loop for the message stored last and removes
    the state. *)
Theorem simple_flow_sends_last_message (w : world) (btid : Z)
    (thread : option Z) (uid : Z) (first closing : Message)
    (rest : list Message) (bs : gmap Z b_dict) :
  other_topic btid thread = false ->
  from_user_id first = uid ->
  Forall (plain uid) rest ->
  from_user_id closing = uid ->
  command closing = "ok"%string ->
  let started := cmd_broadcast_start btid true thread uid bs in
  snd started = AskMessage
  /\ admin_broadcast_flow w btid thread closing
       (dialogue w btid thread (first :: rest) (fst started))
     = (delete uid bs,
        Done (default first (last rest))
             (admin_broadcast_flow_ok w (default first (last rest)))).
Proof.
  intros Htopic Hfirst Hrest Hclosing Hok started.
  assert (Es : started = (<[uid := Wait]> bs, AskMessage)).
  { subst started. unfold cmd_broadcast_start. by rewrite Htopic. }
  rewrite Es. cbn [fst snd]. split; [done|].
  assert (E1 : admin_broadcast_flow w btid thread first (<[uid := Wait]> bs)
               = (<[uid := Confirm first]> bs, AskConfirm)).
  { unfold admin_broadcast_flow.
    by rewrite Hfirst, lookup_insert_eq, Htopic, insert_insert_eq. }
  unfold dialogue. cbn [foldl]. rewrite E1. cbn [fst].
  fold (dialogue w btid thread rest (<[uid := Confirm first]> bs)).
  rewrite (dialogue_plain w btid thread uid rest first)
    by (by rewrite ?lookup_insert_eq).
  rewrite insert_insert_eq. unfold admin_broadcast_flow.
  rewrite Hclosing, lookup_insert_eq, Htopic, Hok. cbn.
  by rewrite delete_insert_eq.
Qed.

Lemma simple_flow_sends_last_message_witness :
  let started :=
    cmd_broadcast_start 55 true (Some 55%Z) 7
      {[ 8%Z := Confirm (text_message 8 "other") ]} in
  snd started = AskMessage
  /\ admin_broadcast_flow (quiet three_users 20) 55 (Some 55%Z)
       (text_message 7 " Ok ")
       (dialogue (quiet three_users 20) 55 (Some 55%Z)
          (text_message 7 "cancel"
           :: [text_message 7 "sale"; photo_message 7 (Some "ok"%string)])
          (fst started))
     = (delete 7%Z {[ 8%Z := Confirm (text_message 8 "other") ]},
        Done (default (text_message 7 "cancel")
                (last [text_message 7 "sale";
                       photo_message 7 (Some "ok"%string)]))
             (admin_broadcast_flow_ok (quiet three_users 20)
                (default (text_message 7 "cancel")
                   (last [text_message 7 "sale";
                          photo_message 7 (Some "ok"%string)])))).
Proof.
  apply simple_flow_sends_last_message.
  - vm_compute. reflexivity.
  - reflexivity.
  - repeat constructor.
  - reflexivity.
  - vm_compute. reflexivity.
Defined.

(** X19. A stored message is confirmed or cancelled once. [ok] and
    [cancel] remove the operator's state, and after that every message
    of the operator is ignored, in whatever thread it is written: nothing
    is sent a second time until [/broadcast] is given again. *)
Theorem simple_flow_confirmation_is_used_up (w : world) (btid : Z)
    (thread thread' : option Z) (uid : Z) (msg closing later : Message)
    (bs : gmap Z b_dict) :
  other_topic btid thread = false ->
  bs !! uid = Some (Confirm msg) ->
  from_user_id closing = uid ->
  from_user_id later = uid ->
  command closing = "ok"%string \/ command closing = "cancel"%string ->
  let r := admin_broadcast_flow w btid thread closing bs in
  fst r = delete uid bs
  /\ snd r = (if String.eqb (command closing) "ok"
              then Done msg (admin_broadcast_flow_ok w msg) else Cancelled)
  /\ admin_broadcast_flow w btid thread' later (fst r) = (fst r, Ignored).
Proof.
  intros Htopic Hst Hclosing Hlater Hcmd r.
  assert (Er : r = (delete uid bs,
                    if String.eqb (command closing) "ok"
                    then Done msg (admin_broadcast_flow_ok w msg)
                    else Cancelled)).
  { subst r. unfold admin_broadcast_flow. rewrite Hclosing, Hst, Htopic.
    by destruct Hcmd as [-> | ->]. }
  rewrite Er. cbn [fst snd]. split; [done|]. split; [done|].
  unfold admin_broadcast_flow. by rewrite Hlater, lookup_delete_eq.
Qed.

Lemma simple_flow_confirmation_is_used_up_witness :
  let r := admin_broadcast_flow (quiet three_users 20) 0 None
             (text_message 7 "OK")
             {[ 7%Z := Confirm (text_message 7 "sale") ]} in
  fst r = delete 7%Z {[ 7%Z := Confirm (text_message 7 "sale") ]}
  /\ snd r = (if String.eqb (command (text_message 7 "OK")) "ok"
              then Done (text_message 7 "sale")
                     (admin_broadcast_flow_ok (quiet three_users 20)
                        (text_message 7 "sale"))
              else Cancelled)
  /\ admin_broadcast_flow (quiet three_users 20) 0 (Some 3%Z)
       (text_message 7 "ok") (fst r)
     = (fst r, Ignored).
Proof.
  apply (simple_flow_confirmation_is_used_up (quiet three_users 20) 0
           None (Some 3%Z) 7 (text_message 7 "sale") (text_message 7 "OK")
           (text_message 7 "ok")).
  - reflexivity.
  - vm_compute. reflexivity.
  - reflexivity.
  - reflexivity.
  - left. vm_compute. reflexivity.
Defined.

(** X20. The dictionaries that the buttons panel puts into
    [broadcast_states] have no [step]: after [btns:edit] or [btns:add]
    every call of [admin_broadcast_flow] for a message of that operator in
    the broadcast topic (or anywhere, when there is no such topic) raises
    [KeyError] and leaves the state as it is, so that the next call raises
    again. *)
Theorem buttons_state_breaks_broadcast_flow (w : world) (btid : Z)
    (thread : option Z) (act : string) (m : Message) (bs : gmap Z b_dict) :
  act = "edit"%string \/ act = "add"%string ->
  other_topic btid thread = false ->
  admin_broadcast_flow w btid thread m (cb_buttons act (from_user_id m) bs)
  = (cb_buttons act (from_user_id m) bs, StepKeyError).
Proof.
  intros Hact Htopic. unfold admin_broadcast_flow.
  destruct Hact as [-> | ->]; cbn [cb_buttons String.eqb Ascii.eqb Bool.eqb];
    by rewrite lookup_insert_eq, Htopic.
Qed.

Lemma buttons_state_breaks_broadcast_flow_witness :
  admin_broadcast_flow (quiet three_users 20) 55 (Some 55%Z)
    (text_message 7 "Earn | How | Support")
    (cb_buttons "edit" (from_user_id (text_message 7 "Earn | How | Support"))
       {[ 7%Z := Confirm (text_message 7 "sale") ]})
  = (cb_buttons "edit" (from_user_id (text_message 7 "Earn | How | Support"))
       {[ 7%Z := Confirm (text_message 7 "sale") ]},
     StepKeyError).
Proof.
  apply buttons_state_breaks_broadcast_flow.
  - by left.
  - vm_compute. reflexivity.
Defined.

(** * Properties of the button texts *)

Lemma get_setting_set_setting key value default db :
  get_setting (set_setting key value db) key default = value.
Proof. unfold get_setting, set_setting. by rewrite lookup_insert_eq. Qed.

Lemma get_setting_set_setting_ne key key' value default db :
  key <> key' ->
  get_setting (set_setting key value db) key' default
  = get_setting db key' default.
Proof.
  intros Hne. unfold get_setting, set_setting.
  by rewrite lookup_insert_ne.
Qed.

(** X21. The panel stores the three button texts as they are split and
    stripped, an empty one too, and [get_setting] hands an empty text on
    instead of the default. When the first of the three parts is empty,
    [client_router] takes every message of a client that has no text (a
    photo, a voice message) or only blanks for a press of the first
    button: it shows the referral panel, opens no window and never
    passes the message on to the operators. *)
Theorem empty_button_text_catches_media (t how sup : string) (uid : Z)
    (bs : gmap Z b_dict) (db : gmap string (option string))
    (custom_buttons : list string) :
  bs !! uid = Some (Mode "edit_buttons") ->
  strip <$> split_on "|" t = [EmptyString; how; sup] ->
  let r := edit_buttons_reply (Some t) uid bs db custom_buttons in
  snd r = ButtonsUpdated
  /\ forall (defaults : buttons) (now1 now2 client : Z)
            (text : option string) (win : gmap Z Z),
       strip (or_empty text) = EmptyString ->
       client_router (client_buttons defaults (settings_after r))
         now1 now2 client text win
       = (win, ShowReferral).
Proof.
  intros Hst Hparts r.
  assert (Er : r = (delete uid bs,
                    set_setting "btn_support_text" sup
                      (set_setting "btn_howto_text" how
                         (set_setting "btn_ref_text" EmptyString db)),
                    custom_buttons, ButtonsUpdated)).
  { subst r. unfold edit_buttons_reply. rewrite Hst.
    cbn [String.eqb Ascii.eqb Bool.eqb]. cbn. by rewrite Hparts. }
  rewrite Er. split; [done|].
  intros defaults now1 now2 client text win Htxt.
  unfold settings_after. cbn [fst snd].
  unfold client_router. rewrite Htxt.
  unfold client_buttons. cbn [btn_ref].
  rewrite !get_setting_set_setting_ne by done.
  by rewrite get_setting_set_setting.
Qed.

Lemma empty_button_text_catches_media_witness :
  let r := edit_buttons_reply (Some " | How | Support"%string) 7
             {[ 7%Z := Mode "edit_buttons" ]} ∅ [] in
  snd r = ButtonsUpdated
  /\ forall (defaults : buttons) (now1 now2 client : Z)
            (text : option string) (win : gmap Z Z),
       strip (or_empty text) = EmptyString ->
       client_router (client_buttons defaults (settings_after r))
         now1 now2 client text win
       = (win, ShowReferral).
Proof.
  apply (empty_button_text_catches_media " | How | Support" "How" "Support").
  - vm_compute. reflexivity.
  - vm_compute. reflexivity.
Defined.

(** * From a run to the export *)

Lemma select_history_all table : select_history None table ≡ₚ table.
Proof.
  unfold select_history. rewrite merge_sort_Permutation.
  assert (E : List.filter (matches None) table = table);
    [|by rewrite E].
  induction table as [|r table IH]; [done|]. simpl. by rewrite IH.
Qed.

(** X22. A run of the PRO worker that returns shows up in the export of
    the whole history: the export made afterwards is a file, never the
    answer that nothing was found, its rows are the rows the table had
    before the run and one more, and that one carries the operator, the
    kind of the message, the number of successful sends and the number of
    recipients of the run. *)
Theorem returned_run_is_exported (w : world) (polls : nat) (admin_id : Z)
    (msg : Message) (s0 s' : wstate) (now : Z) :
  run_broadcast w polls admin_id msg s0 = Returned s' ->
  exists r rows,
    export_cb "all" now (history s')
    = Exported "broadcast-history-all.csv"
        (csv_header +:+ newline +:+ csv_lines rows)
    /\ rows ≡ₚ history s0 ++ [r]
    /\ written admin_id msg r (sent s') (length (fetch_unbanned (users w))).
Proof.
  unfold run_broadcast.
  set (tg_ids := fetch_unbanned (users w)).
  destruct (for_loop_spec w polls admin_id msg tg_ids tg_ids (prelude w s0))
    as (done & todo & _ & (_ & _ & _ & _ & Hh & _) & _).
  intros Hrun.
  assert (Hs : exists s1,
             s' = epilogue w admin_id msg (length tg_ids) s1
             /\ history s1 = history s0).
  { destruct (for_loop w polls admin_id msg tg_ids tg_ids (prelude w s0))
      as [s1|s1|s1|s1]; try done; injection Hrun as <-; by exists s1. }
  destruct Hs as (s1 & -> & Hh1).
  destruct (epilogue_fields w admin_id msg (length tg_ids) s1)
    as (Hsent & _ & _ & _ & (r & Eh & Hw) & _).
  set (rows := select_history None
                 (history (epilogue w admin_id msg (length tg_ids) s1))).
  assert (Hperm : rows ≡ₚ history s0 ++ [r]).
  { subst rows. by rewrite select_history_all, Eh, Hh1. }
  exists r, rows. split; [|split].
  - change "all"%string with (kind_of AllTime).
    rewrite export_cb_by_range. cbn [cutoff_of kind_of]. fold rows.
    destruct rows as [|r0 rows0]; [|reflexivity].
    apply Permutation_nil_l in Hperm. by destruct (history s0).
  - exact Hperm.
  - by rewrite Hsent.
Qed.

Lemma returned_run_is_exported_witness :
  exists r rows,
    export_cb "all" 100
      (history (result_state
         (run_broadcast (quiet three_users 20) 0 7 (text_message 7 "hi")
            (initial (confirmed 7 (text_message 7 "hi")) []))))
    = Exported "broadcast-history-all.csv"
        (csv_header +:+ newline +:+ csv_lines rows)
    /\ rows ≡ₚ history (initial (confirmed 7 (text_message 7 "hi")) []) ++ [r]
    /\ written 7 (text_message 7 "hi") r
         (sent (result_state
            (run_broadcast (quiet three_users 20) 0 7 (text_message 7 "hi")
               (initial (confirmed 7 (text_message 7 "hi")) []))))
         (length (fetch_unbanned (users (quiet three_users 20)))).
Proof.
  apply (returned_run_is_exported (quiet three_users 20) 0 7
           (text_message 7 "hi")
           (initial (confirmed 7 (text_message 7 "hi")) [])).
  vm_compute. reflexivity.
Defined.
